(** * simple-salesforce: the Bulk API request handler

    A shallow embedding of [simple_salesforce/bulk.py]: the HTTP call wrapper
    [_call_salesforce], the exception router [_exception_handler], the job
    and batch helpers of [SFBulkType], the end-to-end [_bulk_operation] and
    its six public wrappers.

    Python values are modelled as follows.
    - [str] is a list of code points, so offsets are character offsets as
      in Python.
    - Decoded JSON documents, and the Python objects handed to
      [json.dumps], are values of type [json]; a [dict] is an association
      list in insertion order.
    - The shared header mapping and the calls issued through the session
      live in an explicit [world]; every helper is a state-and-exception
      computation over it.
    - The two [while] loops take a fuel argument; [Diverged] is the
      outcome of a loop that is still running when the fuel is spent. *)

From Stdlib Require Import Ascii String DecimalString DecimalNat.
From Stdlib Require Import List NArith ZArith Bool Lia.
Import ListNotations.

Set Implicit Arguments.
Set Warnings "-register-all".

(** ** Python strings *)

Definition str := list N.

(** The code points of an ASCII literal. *)
Definition u (s : string) : str := map N_of_ascii (list_ascii_of_string s).

Definition ch (a : ascii) : N := N_of_ascii a.

Fixpoint str_eqb (a b : str) : bool :=
  match a, b with
  | [], [] => true
  | x :: a', y :: b' => N.eqb x y && str_eqb a' b'
  | _, _ => false
  end.

Definition dec_nat (n : nat) : str := u (NilZero.string_of_uint (Nat.to_uint n)).

Definition dec_Z (z : Z) : str := u (NilZero.string_of_int (Z.to_int z)).

Definition is_digit (c : N) : bool := (48 <=? c)%N && (c <=? 57)%N.

Definition digits_value (ds : str) : N :=
  fold_left (fun acc c => (acc * 10 + (c - 48))%N) ds 0%N.

(** [s[a:b]] for non-negative bounds. *)
Definition slice (s : str) (a b : nat) : str := firstn (b - a) (skipn a s).

(** [s.startswith(p)] read at an offset: [s[idx:idx+len(p)] == p]. *)
Definition slice_is (s : str) (idx : nat) (p : string) : bool :=
  str_eqb (slice s idx (idx + length (u p))) (u p).

(** ** JSON values *)

Inductive json : Type :=
| JNull
| JBool (b : bool)
| JInt (z : Z)
| JFloat (lexeme : str)
| JStr (s : str)
| JList (l : list json)
| JDict (d : list (str * json)).

Definition dict (V : Type) := list (str * V).

Fixpoint dict_get {V} (d : dict V) (k : str) : option V :=
  match d with
  | [] => None
  | (k', v) :: d' => if str_eqb k' k then Some v else dict_get d' k
  end.

(** [d[k] = v]: an existing key keeps its place, a new key goes last. *)
Fixpoint dict_set {V} (d : dict V) (k : str) (v : V) : dict V :=
  match d with
  | [] => [(k, v)]
  | (k', v') :: d' =>
      if str_eqb k' k then (k', v) :: d' else (k', v') :: dict_set d' k v
  end.

(** [d.update(e)]. *)
Definition dict_update {V} (d e : dict V) : dict V :=
  fold_left (fun acc kv => dict_set acc (fst kv) (snd kv)) e d.

(** [dict(pairs)]. *)
Definition dict_of_pairs {V} (pairs : list (str * V)) : dict V :=
  dict_update [] pairs.

(** ** [json.dumps] with its default settings

    Separators are [", "] and [": "], non-ASCII characters are escaped.
    A float is printed by its literal text. *)

Definition hex_digit (n : N) : N :=
  if (n <? 10)%N then (48 + n)%N else (87 + n)%N.

Definition hex4 (n : N) : str :=
  [ hex_digit (N.land (N.shiftr n 12) 15); hex_digit (N.land (N.shiftr n 8) 15);
    hex_digit (N.land (N.shiftr n 4) 15); hex_digit (N.land n 15) ].

Definition escape_char (c : N) : str :=
  if (c =? 92)%N then u "\\"
  else if (c =? 34)%N then [92; 34]%N
  else if (c =? 8)%N then u "\b"
  else if (c =? 12)%N then u "\f"
  else if (c =? 10)%N then u "\n"
  else if (c =? 13)%N then u "\r"
  else if (c =? 9)%N then u "\t"
  else if (32 <=? c)%N && (c <=? 126)%N then [c]
  else if (c <? 65536)%N then u "\u" ++ hex4 c
  else
    let n := (c - 65536)%N in
    let s1 := N.lor 55296 (N.land (N.shiftr n 10) 1023) in
    let s2 := N.lor 56320 (N.land n 1023) in
    u "\u" ++ hex4 s1 ++ u "\u" ++ hex4 s2.

Definition encode_basestring_ascii (s : str) : str :=
  [34%N] ++ flat_map escape_char s ++ [34%N].

Fixpoint join (sep : str) (parts : list str) : str :=
  match parts with
  | [] => []
  | [p] => p
  | p :: ps => p ++ sep ++ join sep ps
  end.

Fixpoint json_dumps (v : json) : str :=
  match v with
  | JNull => u "null"
  | JBool true => u "true"
  | JBool false => u "false"
  | JInt z => dec_Z z
  | JFloat lexeme => lexeme
  | JStr s => encode_basestring_ascii s
  | JList l => u "[" ++ join (u ", ") (map json_dumps l) ++ u "]"
  | JDict d =>
      u "{" ++
      join (u ", ")
        (map (fun kv => encode_basestring_ascii (fst kv) ++ u ": " ++ json_dumps (snd kv)) d)
      ++ u "}"
  end.

(** ** [json.loads]

    The decoder follows [json/decoder.py] and [json/scanner.py] of CPython
    3.11: [scanstring], [JSONObject], [JSONArray], [scan_once],
    [raw_decode] and [decode].  An error carries the message and the
    character offset, as [JSONDecodeError(msg, doc, pos)] does; where the
    two implementations of [scanstring] differ, the message and the offset
    are those of the accelerated one, which is the one in use.  A float is
    kept as its literal text.  The loops of the decoder run on a budget
    that the length of the text covers ([json_loads_total] below); the
    recursion limit of the interpreter is not modelled. *)

Inductive scan (A : Type) : Type :=
| Scanned (a : A) (end_ : nat)
| StopIteration (idx : nat)
| DecodeError (msg : str) (pos : nat)
| Exhausted.

Arguments Scanned {A} a end_.
Arguments StopIteration {A} idx.
Arguments DecodeError {A} msg pos.
Arguments Exhausted {A}.

Definition is_ws (c : N) : bool :=
  (c =? 32)%N || (c =? 9)%N || (c =? 10)%N || (c =? 13)%N.

(** [nextchar in _ws] for a slice of length at most one: the empty string
    is a substring of every string. *)
Definition in_ws (nextchar : option N) : bool :=
  match nextchar with
  | None => true
  | Some c => is_ws c
  end.

Definition is_char (nextchar : option N) (a : ascii) : bool :=
  match nextchar with
  | None => false
  | Some c => N.eqb c (ch a)
  end.

Fixpoint skip_ws_from (rest : str) (idx : nat) : nat :=
  match rest with
  | c :: rest' => if is_ws c then skip_ws_from rest' (S idx) else idx
  | [] => idx
  end.

(** [WHITESPACE.match(s, idx).end()]; a start beyond the end is clamped. *)
Definition skip_ws (s : str) (idx : nat) : nat :=
  if length s <? idx then length s else skip_ws_from (skipn idx s) idx.

(** [STRINGCHUNK.match(s, end)]: the content up to the first quote,
    backslash or control character, that terminator, and the offset after
    it. *)
Fixpoint stringchunk_from (rest : str) (idx : nat) (content : str)
  : option (str * N * nat) :=
  match rest with
  | [] => None
  | c :: rest' =>
      if (c =? 34)%N || (c =? 92)%N || (c <? 32)%N
      then Some (rev content, c, S idx)
      else stringchunk_from rest' (S idx) (c :: content)
  end.

Definition stringchunk (s : str) (end_ : nat) : option (str * N * nat) :=
  stringchunk_from (skipn end_ s) end_ [].

Definition BACKSLASH (esc : N) : option N :=
  if (esc =? 34)%N then Some 34%N
  else if (esc =? 92)%N then Some 92%N
  else if (esc =? ch "/")%N then Some (ch "/")
  else if (esc =? ch "b")%N then Some 8%N
  else if (esc =? ch "f")%N then Some 12%N
  else if (esc =? ch "n")%N then Some 10%N
  else if (esc =? ch "r")%N then Some 13%N
  else if (esc =? ch "t")%N then Some 9%N
  else None.

Definition hex_value (c : N) : option N :=
  if is_digit c then Some (c - 48)%N
  else if (97 <=? c)%N && (c <=? 102)%N then Some (c - 87)%N
  else if (65 <=? c)%N && (c <=? 70)%N then Some (c - 55)%N
  else None.

Definition _decode_uXXXX (s : str) (pos : nat) : option N :=
  match map hex_value (slice s (pos + 1) (pos + 5)) with
  | [Some a; Some b; Some c; Some d] => Some (((a * 16 + b) * 16 + c) * 16 + d)%N
  | _ => None
  end.

Fixpoint scanstring_loop (n : nat) (s : str) (begin end_ : nat) (chunks : str)
  : scan str :=
  match n with
  | 0 => Exhausted
  | S n' =>
      match stringchunk s end_ with
      | None => DecodeError (u "Unterminated string starting at") begin
      | Some (content, terminator, end1) =>
          let chunks := chunks ++ content in
          if (terminator =? 34)%N then Scanned chunks end1
          else if negb (terminator =? 92)%N
          then DecodeError (u "Invalid control character at") (end1 - 1)
          else
            match nth_error s end1 with
            | None => DecodeError (u "Unterminated string starting at") begin
            | Some esc =>
                if negb (esc =? ch "u")%N then
                  match BACKSLASH esc with
                  | None => DecodeError (u "Invalid \escape") (end1 - 1)
                  | Some c => scanstring_loop n' s begin (end1 + 1) (chunks ++ [c])
                  end
                else
                  match _decode_uXXXX s end1 with
                  | None => DecodeError (u "Invalid \uXXXX escape") end1
                  | Some uni =>
                      let end2 := end1 + 5 in
                      if (55296 <=? uni)%N && (uni <=? 56319)%N
                         && slice_is s end2 "\u"
                      then
                        match _decode_uXXXX s (end2 + 1) with
                        | None => DecodeError (u "Invalid \uXXXX escape") (end2 + 1)
                        | Some uni2 =>
                            if (56320 <=? uni2)%N && (uni2 <=? 57343)%N
                            then
                              let c := (65536 + N.lor (N.shiftl (uni - 55296) 10)
                                                     (uni2 - 56320))%N in
                              scanstring_loop n' s begin (end2 + 6) (chunks ++ [c])
                            else scanstring_loop n' s begin end2 (chunks ++ [uni])
                        end
                      else scanstring_loop n' s begin end2 (chunks ++ [uni])
                  end
            end
      end
  end.

Definition scanstring (s : str) (end_ : nat) : scan str :=
  scanstring_loop (S (length s)) s (end_ - 1) end_ [].

(** [NUMBER_RE.match(s, idx)]: the integer, fraction and exponent groups
    and the offset after the match. *)
Fixpoint span_digits (rest : str) : str * str :=
  match rest with
  | c :: rest' =>
      if is_digit c then let (ds, r) := span_digits rest' in (c :: ds, r)
      else ([], rest)
  | [] => ([], [])
  end.

Definition match_integer (rest : str) : option (str * str) :=
  let (sign, rest1) :=
    match rest with
    | c :: r => if (c =? ch "-")%N then ([c], r) else ([], rest)
    | [] => ([], rest)
    end in
  match rest1 with
  | c :: r =>
      if (c =? 48)%N then Some (sign ++ [c], r)
      else if is_digit c then
        let (ds, r') := span_digits r in Some (sign ++ c :: ds, r')
      else None
  | [] => None
  end.

Definition match_frac (rest : str) : str * str :=
  match rest with
  | c :: r =>
      if (c =? ch ".")%N then
        match span_digits r with
        | ([], _) => ([], rest)
        | (ds, r') => (c :: ds, r')
        end
      else ([], rest)
  | [] => ([], rest)
  end.

Definition match_exp (rest : str) : str * str :=
  match rest with
  | c :: r =>
      if (c =? ch "e")%N || (c =? ch "E")%N then
        let (sign, r1) :=
          match r with
          | c1 :: r' =>
              if (c1 =? ch "-")%N || (c1 =? ch "+")%N then ([c1], r') else ([], r)
          | [] => ([], r)
          end in
        match span_digits r1 with
        | ([], _) => ([], rest)
        | (ds, r') => (c :: sign ++ ds, r')
        end
      else ([], rest)
  | [] => ([], rest)
  end.

Definition match_number (s : str) (idx : nat) : option (str * str * str * nat) :=
  match match_integer (skipn idx s) with
  | None => None
  | Some (integer, r1) =>
      let (frac, r2) := match_frac r1 in
      let (exp, r3) := match_exp r2 in
      Some (integer, frac, exp, idx + length integer + length frac + length exp)
  end.

(** [int(integer)] on a matched integer group. *)
Definition parse_int (integer : str) : Z :=
  match integer with
  | c :: ds => if (c =? ch "-")%N then (- Z.of_N (digits_value ds))%Z
               else Z.of_N (digits_value integer)
  | [] => 0%Z
  end.

(** After a key's colon and after an array's comma: the fast path that
    skips one or more blanks, where running off the end is ignored. *)
Definition skip_ws_after (s : str) (end_ : nat) : nat :=
  match nth_error s end_ with
  | None => end_
  | Some c =>
      if is_ws c then
        match nth_error s (S end_) with
        | None => S end_
        | Some c2 => if is_ws c2 then skip_ws s (S (S end_)) else S end_
        end
      else end_
  end.

Fixpoint JSONObject_loop (n : nat) (scan_once : str -> nat -> scan json)
    (s : str) (pairs : list (str * json)) (end_ : nat) : scan json :=
  match n with
  | 0 => Exhausted
  | S n' =>
      match scanstring s end_ with
      | Scanned key end1 =>
          let end2 :=
            if is_char (nth_error s end1) ":" then end1 else skip_ws s end1 in
          if negb (is_char (nth_error s end2) ":")
          then DecodeError (u "Expecting ':' delimiter") end2
          else
            let end3 := skip_ws_after s (end2 + 1) in
            match scan_once s end3 with
            | Scanned value end4 =>
                let pairs := pairs ++ [(key, value)] in
                let '(nextchar, end5) :=
                  match nth_error s end4 with
                  | None => (None, end4)
                  | Some c =>
                      if is_ws c
                      then let e := skip_ws s (end4 + 1) in (nth_error s e, e)
                      else (Some c, end4)
                  end in
                let end6 := end5 + 1 in
                if is_char nextchar "}" then Scanned (JDict (dict_of_pairs pairs)) end6
                else if negb (is_char nextchar ",")
                then DecodeError (u "Expecting ',' delimiter") (end6 - 1)
                else
                  let end7 := skip_ws s end6 in
                  let nextchar := nth_error s end7 in
                  let end8 := end7 + 1 in
                  if negb (is_char nextchar "034")
                  then DecodeError
                         (u "Expecting property name enclosed in double quotes")
                         (end8 - 1)
                  else JSONObject_loop n' scan_once s pairs end8
            | StopIteration idx => DecodeError (u "Expecting value") idx
            | DecodeError msg pos => DecodeError msg pos
            | Exhausted => Exhausted
            end
      | StopIteration idx => StopIteration idx
      | DecodeError msg pos => DecodeError msg pos
      | Exhausted => Exhausted
      end
  end.

Definition JSONObject (scan_once : str -> nat -> scan json) (s : str) (end_ : nat)
  : scan json :=
  let budget := S (length s) in
  let nextchar := nth_error s end_ in
  if negb (is_char nextchar "034") then
    let '(nextchar, end1) :=
      if in_ws nextchar
      then let e := skip_ws s end_ in (nth_error s e, e)
      else (nextchar, end_) in
    if is_char nextchar "}" then Scanned (JDict (dict_of_pairs [])) (end1 + 1)
    else if negb (is_char nextchar "034")
    then DecodeError (u "Expecting property name enclosed in double quotes") end1
    else JSONObject_loop budget scan_once s [] (end1 + 1)
  else JSONObject_loop budget scan_once s [] (end_ + 1).

Fixpoint JSONArray_loop (n : nat) (scan_once : str -> nat -> scan json)
    (s : str) (values : list json) (end_ : nat) : scan json :=
  match n with
  | 0 => Exhausted
  | S n' =>
      match scan_once s end_ with
      | Scanned value end1 =>
          let values := values ++ [value] in
          let nextchar := nth_error s end1 in
          let '(nextchar, end2) :=
            if in_ws nextchar
            then let e := skip_ws s (end1 + 1) in (nth_error s e, e)
            else (nextchar, end1) in
          let end3 := end2 + 1 in
          if is_char nextchar "]" then Scanned (JList values) end3
          else if negb (is_char nextchar ",")
          then DecodeError (u "Expecting ',' delimiter") (end3 - 1)
          else JSONArray_loop n' scan_once s values (skip_ws_after s end3)
      | StopIteration idx => DecodeError (u "Expecting value") idx
      | DecodeError msg pos => DecodeError msg pos
      | Exhausted => Exhausted
      end
  end.

Definition JSONArray (scan_once : str -> nat -> scan json) (s : str) (end_ : nat)
  : scan json :=
  let nextchar := nth_error s end_ in
  let '(nextchar, end1) :=
    if in_ws nextchar
    then let e := skip_ws s (end_ + 1) in (nth_error s e, e)
    else (nextchar, end_) in
  if is_char nextchar "]" then Scanned (JList []) (end1 + 1)
  else JSONArray_loop (S (length s)) scan_once s [] end1.

(** [_scan_once]; [depth] bounds the nesting of arrays and objects. *)
Fixpoint scan_once (depth : nat) (s : str) (idx : nat) {struct depth} : scan json :=
  match depth with
  | 0 => Exhausted
  | S depth' =>
      match nth_error s idx with
      | None => StopIteration idx
      | Some nextchar =>
          if (nextchar =? 34)%N then
            match scanstring s (idx + 1) with
            | Scanned v e => Scanned (JStr v) e
            | StopIteration i => StopIteration i
            | DecodeError msg pos => DecodeError msg pos
            | Exhausted => Exhausted
            end
          else if (nextchar =? ch "{")%N then JSONObject (scan_once depth') s (idx + 1)
          else if (nextchar =? ch "[")%N then JSONArray (scan_once depth') s (idx + 1)
          else if (nextchar =? ch "n")%N && slice_is s idx "null"
          then Scanned JNull (idx + 4)
          else if (nextchar =? ch "t")%N && slice_is s idx "true"
          then Scanned (JBool true) (idx + 4)
          else if (nextchar =? ch "f")%N && slice_is s idx "false"
          then Scanned (JBool false) (idx + 5)
          else
            match match_number s idx with
            | Some (integer, frac, exp, e) =>
                match frac, exp with
                | [], [] => Scanned (JInt (parse_int integer)) e
                | _, _ => Scanned (JFloat (integer ++ frac ++ exp)) e
                end
            | None =>
                if (nextchar =? ch "N")%N && slice_is s idx "NaN"
                then Scanned (JFloat (u "NaN")) (idx + 3)
                else if (nextchar =? ch "I")%N && slice_is s idx "Infinity"
                then Scanned (JFloat (u "Infinity")) (idx + 8)
                else if (nextchar =? ch "-")%N && slice_is s idx "-Infinity"
                then Scanned (JFloat (u "-Infinity")) (idx + 9)
                else StopIteration idx
            end
      end
  end.

(** [JSONDecodeError]: a [ValueError] with the message, the offset and the
    line and column computed from the document. *)
Record JSONDecodeError := mkJSONDecodeError {
  err_msg : str;
  err_lineno : nat;
  err_colno : nat;
  err_pos : nat
}.

Definition count_newlines (s : str) : nat :=
  length (filter (fun c => (c =? 10)%N) s).

(** [pos - doc.rfind('\n', 0, pos)] *)
Fixpoint colno_of (prefix : str) (col : nat) : nat :=
  match prefix with
  | [] => col
  | c :: rest => colno_of rest (if (c =? 10)%N then 1 else S col)
  end.

Definition make_error (msg : str) (doc : str) (pos : nat) : JSONDecodeError :=
  {| err_msg := msg;
     err_lineno := count_newlines (firstn pos doc) + 1;
     err_colno := if length doc <? pos
                  then pos - length doc + colno_of doc 1
                  else colno_of (firstn pos doc) 1;
     err_pos := pos |}.

(** [str(e)]: ['%s: line %d column %d (char %d)']. *)
Definition error_text (e : JSONDecodeError) : str :=
  err_msg e ++ u ": line " ++ dec_nat (err_lineno e) ++ u " column "
  ++ dec_nat (err_colno e) ++ u " (char " ++ dec_nat (err_pos e) ++ u ")".

Inductive decoded : Type :=
| Decoded (v : json)
| DecodeFailed (e : JSONDecodeError)
| DecodeTooDeep.

Definition raw_decode (s : str) (idx : nat) : scan json :=
  match scan_once (S (length s)) s idx with
  | StopIteration i => DecodeError (u "Expecting value") i
  | r => r
  end.

Definition decode (s : str) : decoded :=
  match raw_decode s (skip_ws s 0) with
  | Scanned obj end_ =>
      let end1 := skip_ws s end_ in
      if negb (end1 =? length s)
      then DecodeFailed (make_error (u "Extra data") s end1)
      else Decoded obj
  | StopIteration i => DecodeFailed (make_error (u "Expecting value") s i)
  | DecodeError msg pos => DecodeFailed (make_error msg s pos)
  | Exhausted => DecodeTooDeep
  end.

Definition json_loads (s : str) : decoded :=
  match s with
  | 65279%N :: _ =>
      DecodeFailed (make_error (u "Unexpected UTF-8 BOM (decode using utf-8-sig)") s 0)
  | _ => decode s
  end.

(** ** Exceptions, responses and the state of the process *)

Inductive exc_cls : Type :=
| SalesforceMoreThanOneRecord
| SalesforceMalformedRequest
| SalesforceExpiredSession
| SalesforceRefusedRequest
| SalesforceResourceNotFound
| SalesforceGeneralError.

(** Modelled from the spec: the base class [SalesforceError] of
    [simple_salesforce/util.py], which is not among the sources; its
    instances carry the request URL, the status code, the resource name and
    the captured response body, in the order of the call
    [exc_cls(result.url, result.status_code, name, response_content)]. *)
Record SalesforceError := mkSalesforceError {
  err_class : exc_cls;
  err_url : str;
  err_status : Z;
  err_resource_name : str;
  err_content : json
}.

Inductive exn : Type :=
| ESalesforce (e : SalesforceError)
| EJSONDecode (e : JSONDecodeError)
| EValueError
| EKeyError (key : json)
| ETypeError
| EIndexError
| ERecursionError
| ERequestException.

Record response := mkResponse {
  status_code : Z;
  url : str;
  text : str
}.

Record request := mkRequest {
  req_method : str;
  req_url : str;
  req_headers : dict str;
  req_data : option json
}.

Inductive reply : Type :=
| Responded (result : response)
| RequestFailed.

Inductive event : Type :=
| Call (rq : request) (rp : reply)
| Sleep (seconds : N)
| Printed (line : str).

(** The shared header mapping [self.headers] and the record of what the
    process did so far. *)
Record world := mkWorld {
  headers : dict str;
  log : list event
}.

Inductive outcome (A : Type) : Type :=
| Returned (a : A)
| Raised (e : exn)
| Diverged.

Arguments Returned {A} a.
Arguments Raised {A} e.
Arguments Diverged {A}.

Definition M (A : Type) : Type := world -> outcome A * world.

Definition ret {A} (a : A) : M A := fun w => (Returned a, w).

Definition raise {A} (e : exn) : M A := fun w => (Raised e, w).

Definition diverge {A} : M A := fun w => (Diverged, w).

Definition bind {A B} (m : M A) (k : A -> M B) : M B :=
  fun w =>
    match m w with
    | (Returned a, w') => k a w'
    | (Raised e, w') => (Raised e, w')
    | (Diverged, w') => (Diverged, w')
    end.

Declare Scope py_scope.
Delimit Scope py_scope with py.
Notation "x <- m ;; k" := (bind m (fun x => k))
  (at level 100, m at next level, right associativity) : py_scope.
Notation "m ;; k" := (bind m (fun _ => k))
  (at level 100, right associativity) : py_scope.
Open Scope py_scope.

Definition emit (e : event) : M unit :=
  fun w => (Returned tt, {| headers := headers w; log := log w ++ [e] |}).

Definition sleep (seconds : N) : M unit := emit (Sleep seconds).

Definition print (line : str) : M unit := emit (Printed line).

(** [v[key]] for a string key. *)
Definition getitem (v : json) (key : string) : M json :=
  match v with
  | JDict d =>
      match dict_get d (u key) with
      | Some x => ret x
      | None => raise (EKeyError (JStr (u key)))
      end
  | _ => raise ETypeError
  end.

(** [v[0]] *)
Definition getitem0 (v : json) : M json :=
  match v with
  | JList (x :: _) => ret x
  | JList [] => raise EIndexError
  | JStr (c :: _) => ret (JStr [c])
  | JStr [] => raise EIndexError
  | JDict _ => raise (EKeyError (JInt 0))
  | _ => raise ETypeError
  end.

Definition py_len (v : json) : M nat :=
  match v with
  | JList l => ret (length l)
  | JStr s => ret (length s)
  | JDict d => ret (length d)
  | _ => raise ETypeError
  end.

(** [v == lit] for a string literal. *)
Definition eq_literal (v : json) (lit : string) : bool :=
  match v with
  | JStr s => str_eqb s (u lit)
  | _ => false
  end.

(** [v in [lit, ...]] *)
Definition in_literals (v : json) (lits : list string) : bool :=
  existsb (eq_literal v) lits.

(** [result.json()] *)
Definition response_json (result : response) : M json :=
  match json_loads (text result) with
  | Decoded v => ret v
  | DecodeFailed e => raise (EJSONDecode e)
  | DecodeTooDeep => raise ERecursionError
  end.

(** ** The HTTP call wrapper and the exception router *)

Definition exc_map : list (Z * exc_cls) :=
  [ (300%Z, SalesforceMoreThanOneRecord);
    (400%Z, SalesforceMalformedRequest);
    (401%Z, SalesforceExpiredSession);
    (403%Z, SalesforceRefusedRequest);
    (404%Z, SalesforceResourceNotFound) ].

(** [exc_map.get(key, default)] *)
Definition exc_map_get (key : Z) (default : exc_cls) : exc_cls :=
  match find (fun entry => Z.eqb (fst entry) key) exc_map with
  | Some entry => snd entry
  | None => default
  end.

Definition _exception_handler (result : response) (name : str) : M unit :=
  let response_content :=
    match json_loads (text result) with
    | Decoded v => v
    | _ => JStr (text result)
    end in
  let cls := exc_map_get (status_code result) SalesforceGeneralError in
  raise (ESalesforce
           {| err_class := cls;
              err_url := url result;
              err_status := status_code result;
              err_resource_name := name;
              err_content := response_content |}).

(** A session answers a request, given what happened before it. *)
Definition Session := list event -> request -> reply.

(** [session.request(method, url, headers=headers, **kwargs)] *)
Definition session_request (session : Session) (method url_ : str)
    (data : option json) : M response :=
  fun w =>
    let rq := {| req_method := method; req_url := url_;
                 req_headers := headers w; req_data := data |} in
    let rp := session (log w) rq in
    let w' := {| headers := headers w; log := log w ++ [Call rq rp] |} in
    match rp with
    | Responded result => (Returned result, w')
    | RequestFailed => (Raised ERequestException, w')
    end.

(** [headers.update(additional_headers or dict())] on the shared mapping. *)
Definition headers_update (additional_headers : option (dict str)) : M unit :=
  fun w =>
    let extra := match additional_headers with Some d => d | None => [] end in
    (Returned tt, {| headers := dict_update (headers w) extra; log := log w |}).

Definition _call_salesforce (url_ method : str) (session : Session)
    (additional_headers : option (dict str)) (data : option json) : M response :=
  headers_update additional_headers ;;
  result <- session_request session method url_ data ;;
  (if (300 <=? status_code result)%Z
   then _exception_handler result []
   else ret tt) ;;
  ret result.

(** ** [SFBulkType] *)

Record SFBulkType := mkSFBulkType {
  object_name : str;
  bulk_url : str;
  session : Session
}.

Section Bulk.

(** [str()] of a float, a list or a dict, which the helpers reach only
    when the remote sends such a value where an identifier is expected. *)
Variable py_repr : json -> str.

(** ["{}".format(v)] *)
Definition py_format (v : json) : str :=
  match v with
  | JStr s => s
  | JInt z => dec_Z z
  | JNull => u "None"
  | JBool true => u "True"
  | JBool false => u "False"
  | _ => py_repr v
  end.

Definition create_job_payload (operation object_name_ : str)
    (external_id_field : json) : dict json :=
  let payload :=
    [ (u "operation", JStr operation);
      (u "object", JStr object_name_);
      (u "contentType", JStr (u "JSON")) ] in
  if str_eqb operation (u "upsert")
  then dict_set payload (u "externalIdFieldName") external_id_field
  else payload.

Definition _create_job (self : SFBulkType) (operation object_name_ : str)
    (external_id_field : json) : M json :=
  let payload := create_job_payload operation object_name_ external_id_field in
  let url_ := bulk_url self ++ u "job" in
  result <- _call_salesforce url_ (u "POST") (session self) None
              (Some (JStr (json_dumps (JDict payload)))) ;;
  response_json result.

Definition _close_job (self : SFBulkType) (job_id : json) : M json :=
  let payload := [ (u "state", JStr (u "Closed")) ] in
  let url_ := bulk_url self ++ u "job/" ++ py_format job_id in
  result <- _call_salesforce url_ (u "POST") (session self) None
              (Some (JStr (json_dumps (JDict payload)))) ;;
  response_json result.

Definition _get_job (self : SFBulkType) (job_id : json) : M json :=
  let url_ := bulk_url self ++ u "job/" ++ py_format job_id in
  result <- _call_salesforce url_ (u "GET") (session self) None None ;;
  response_json result.

(** The batch body: the records serialised, or the query as it is. *)
Definition batch_body (data : json) (operation : str) : json :=
  if negb (str_eqb operation (u "query")) then JStr (json_dumps data) else data.

Definition _add_batch (self : SFBulkType) (job_id data : json) (operation : str)
  : M json :=
  let url_ := bulk_url self ++ u "job/" ++ py_format job_id ++ u "/batch" in
  let data := batch_body data operation in
  result <- _call_salesforce url_ (u "POST") (session self) None (Some data) ;;
  response_json result.

Definition _get_batch (self : SFBulkType) (job_id batch_id : json) : M json :=
  let url_ := bulk_url self ++ u "job/" ++ py_format job_id ++ u "/batch/"
              ++ py_format batch_id in
  result <- _call_salesforce url_ (u "GET") (session self) None None ;;
  response_json result.

(** The compiled pattern of [_get_batch_results], applied with
    [fullmatch]: the words "Expecting ',' delimiter: line ", a run of
    digits, " column ", a run of digits, a blank, any character, "char ",
    a run of digits (group 1) and any character.  The result is group 1.
    "Any character" excludes the newline.  A run of digits before a
    literal is maximal; the last run gives up its final digit to the
    closing "any character" when nothing else follows it. *)
Fixpoint strip_prefix (p s : str) : option str :=
  match p, s with
  | [], _ => Some s
  | x :: p', y :: s' => if (x =? y)%N then strip_prefix p' s' else None
  | _ :: _, [] => None
  end.

Definition strip_dot (s : str) : option str :=
  match s with
  | c :: s' => if (c =? 10)%N then None else Some s'
  | [] => None
  end.

Definition pattern_fullmatch (msg : str) : option str :=
  match strip_prefix (u "Expecting ',' delimiter: line ") msg with
  | None => None
  | Some r1 =>
      match strip_prefix (u " column ") (snd (span_digits r1)) with
      | None => None
      | Some r2 =>
          match strip_prefix (u " ") (snd (span_digits r2)) with
          | None => None
          | Some r3 =>
              match strip_dot r3 with
              | None => None
              | Some r4 =>
                  match strip_prefix (u "char ") r4 with
                  | None => None
                  | Some r5 =>
                      let (group1, r6) := span_digits r5 in
                      match r6 with
                      | [c] => if (c =? 10)%N then None else Some group1
                      | [] =>
                          match group1 with
                          | [] => None
                          | _ => Some (removelast group1)
                          end
                      | _ => None
                      end
                  end
              end
          end
      end
  end.

(** [int(match.group(1))] *)
Definition py_int (digits : str) : M nat :=
  match digits with
  | [] => raise EValueError
  | _ => ret (N.to_nat (digits_value digits))
  end.

(** ["{},{}".format(text[:pos], text[pos:])] *)
Definition insert_comma (text_ : str) (pos : nat) : str :=
  firstn pos text_ ++ u "," ++ skipn pos text_.

(** The [while True] loop of [_get_batch_results]. *)
Fixpoint repair_loop (fuel : nat) (text_ : str) : M json :=
  match fuel with
  | 0 => diverge
  | S fuel' =>
      match json_loads text_ with
      | Decoded j => ret j
      | DecodeTooDeep => raise ERecursionError
      | DecodeFailed e =>
          print (error_text e) ;;
          match pattern_fullmatch (error_text e) with
          | Some group1 =>
              pos <- py_int group1 ;;
              repair_loop fuel' (insert_comma text_ pos)
          | None => repair_loop fuel' text_
          end
      end
  end.

Definition _get_batch_results (fuel : nat) (self : SFBulkType)
    (job_id batch_id : json) (operation : str) : M json :=
  let url_ := bulk_url self ++ u "job/" ++ py_format job_id ++ u "/batch/"
              ++ py_format batch_id ++ u "/result" in
  result <- _call_salesforce url_ (u "GET") (session self) None None ;;
  if str_eqb operation (u "query") then
    result_data <- response_json result ;;
    n <- py_len result_data ;;
    if 0 <? n then
      first <- (again <- response_json result ;; getitem0 again) ;;
      let url_query_results := url_ ++ u "/" ++ py_format first in
      query_result <- _call_salesforce url_query_results (u "GET") (session self)
                        None None ;;
      response_json query_result
    else ret result_data
  else repair_loop fuel (text result).

(** [self._get_batch(job_id=batch['jobId'], batch_id=batch['id'])['state']] *)
Definition batch_state (self : SFBulkType) (batch : json) : M json :=
  job_id <- getitem batch "jobId" ;;
  batch_id <- getitem batch "id" ;;
  status <- _get_batch self job_id batch_id ;;
  getitem status "state".

Definition terminal_states : list string := ["Completed"; "Failed"; "Not Processed"]%string.

(** The polling loop of [_bulk_operation]; it returns the last state read. *)
Fixpoint poll_loop (fuel : nat) (self : SFBulkType) (batch : json) (wait : N)
    (batch_status : json) : M json :=
  if in_literals batch_status terminal_states then ret batch_status
  else
    match fuel with
    | 0 => diverge
    | S fuel' =>
        sleep wait ;;
        batch_status <- batch_state self batch ;;
        poll_loop fuel' self batch wait batch_status
    end.

Definition _bulk_operation (fuel : nat) (self : SFBulkType)
    (object_name_ operation : str) (data external_id_field : json) (wait : N)
  : M json :=
  job <- _create_job self operation object_name_ external_id_field ;;
  batch <- (job_id <- getitem job "id" ;; _add_batch self job_id data operation) ;;
  (job_id <- getitem job "id" ;; _close_job self job_id) ;;
  batch_status <- batch_state self batch ;;
  poll_loop fuel self batch wait batch_status ;;
  job_id <- getitem batch "jobId" ;;
  batch_id <- getitem batch "id" ;;
  _get_batch_results fuel self job_id batch_id operation.

(** The public operations; [wait] keeps its default of five seconds and
    only [upsert] passes an external id field. *)
Definition delete (fuel : nat) (self : SFBulkType) (data : json) : M json :=
  _bulk_operation fuel self (object_name self) (u "delete") data JNull 5.

Definition insert (fuel : nat) (self : SFBulkType) (data : json) : M json :=
  _bulk_operation fuel self (object_name self) (u "insert") data JNull 5.

Definition upsert (fuel : nat) (self : SFBulkType) (data external_id_field : json)
  : M json :=
  _bulk_operation fuel self (object_name self) (u "upsert") data external_id_field 5.

Definition update (fuel : nat) (self : SFBulkType) (data : json) : M json :=
  _bulk_operation fuel self (object_name self) (u "update") data JNull 5.

Definition hard_delete (fuel : nat) (self : SFBulkType) (data : json) : M json :=
  _bulk_operation fuel self (object_name self) (u "hardDelete") data JNull 5.

Definition query (fuel : nat) (self : SFBulkType) (data : json) : M json :=
  _bulk_operation fuel self (object_name self) (u "query") data JNull 5.

End Bulk.

(** ** Definitions used to state the properties *)

(** The taxonomy of the specification: one error kind per status code. *)
Definition taxonomy (status : Z) : exc_cls :=
  if (status =? 300)%Z then SalesforceMoreThanOneRecord
  else if (status =? 400)%Z then SalesforceMalformedRequest
  else if (status =? 401)%Z then SalesforceExpiredSession
  else if (status =? 403)%Z then SalesforceRefusedRequest
  else if (status =? 404)%Z then SalesforceResourceNotFound
  else SalesforceGeneralError.

(** The body as the specification captures it: parsed when it parses,
    raw text otherwise. *)
Definition captured_body (result : response) : json :=
  match json_loads (text result) with
  | Decoded v => v
  | DecodeFailed _ | DecodeTooDeep => JStr (text result)
  end.

(** The error the router raises for a response, with the empty resource
    name the wrapper passes. *)
Definition classified (result : response) : exn :=
  ESalesforce
    {| err_class := taxonomy (status_code result);
       err_url := url result;
       err_status := status_code result;
       err_resource_name := [];
       err_content := captured_body result |}.

Definition extra_headers (additional_headers : option (dict str)) : dict str :=
  match additional_headers with
  | Some d => d
  | None => []
  end.



(** The outcome of a helper that makes one call and decodes the answer. *)
Definition decoded_reply (rp : reply) : outcome json :=
  match rp with
  | Responded result =>
      if (300 <=? status_code result)%Z then Raised (classified result)
      else
        match json_loads (text result) with
        | Decoded v => Returned v
        | DecodeFailed e => Raised (EJSONDecode e)
        | DecodeTooDeep => Raised ERecursionError
        end
  | RequestFailed => Raised ERequestException
  end.

(** The state after one recorded call. *)
Definition called (w : world) (rq : request) (rp : reply) : world :=
  mkWorld (headers w) (log w ++ [Call rq rp]).


Definition non_upsert_operations : list string :=
  ["insert"; "update"; "delete"; "hardDelete"; "query"]%string.

(** The URL of a batch's result resource. *)
Definition result_url (py_repr : json -> str) (self : SFBulkType)
    (job_id batch_id : json) : str :=
  bulk_url self ++ u "job/" ++ py_format py_repr job_id ++ u "/batch/"
  ++ py_format py_repr batch_id ++ u "/result".

(** A recorded request was sent with the header mapping [hs]. *)
Definition carries (hs : dict str) (e : event) : Prop :=
  match e with
  | Call rq _ => req_headers rq = hs
  | Sleep _ | Printed _ => True
  end.

(** A computation leaves the shared header mapping as it found it, only
    adds to the record, and sends every request with that mapping. *)
Definition keeps_headers {A} (m : M A) : Prop :=
  forall w,
    headers (snd (m w)) = headers w
    /\ exists evs, log (snd (m w)) = log w ++ evs /\ Forall (carries (headers w)) evs.

(** A JSON text written with single quotes in place of double quotes. *)
Definition dq (s : string) : str :=
  map (fun c => if (c =? 39)%N then 34%N else c) (u s).

(** The state after further events. *)
Definition extended (w : world) (evs : list event) : world :=
  mkWorld (headers w) (log w ++ evs).

(** [repairs_to text j n]: the text decodes to [j] after [n] commas have
    been inserted, each at the offset of the delimiter error that the
    decoder reported for the text before it. *)
Inductive repairs_to : str -> json -> nat -> Prop :=
| repairs_done text_ j :
    json_loads text_ = Decoded j -> repairs_to text_ j 0
| repairs_step text_ e j n :
    json_loads text_ = DecodeFailed e ->
    err_msg e = u "Expecting ',' delimiter" ->
    repairs_to (firstn (err_pos e) text_ ++ u "," ++ skipn (err_pos e) text_) j n ->
    repairs_to text_ j (S n).

(** The value of [v[key]], or the exception it raises. *)
Definition item (v : json) (key : string) : outcome json :=
  match v with
  | JDict d =>
      match dict_get d (u key) with
      | Some x => Returned x
      | None => Raised (EKeyError (JStr (u key)))
      end
  | _ => Raised ETypeError
  end.

(** What a reply to a status request reads as: the [state] field of the
    decoded body. *)
Definition state_read (rp : reply) : outcome json :=
  match decoded_reply rp with
  | Returned v => item v "state"
  | Raised e => Raised e
  | Diverged => Diverged
  end.



Section Lifecycle.

Variable py_repr : json -> str.
Variable self : SFBulkType.
Variables object_name_ operation : str.
Variables data external_id_field : json.
Variable wait : N.
Variable hs : dict str.

(** The requests of one end-to-end operation. *)
Definition create_request : request :=
  mkRequest (u "POST") (bulk_url self ++ u "job") hs
    (Some (JStr (json_dumps
       (JDict (create_job_payload operation object_name_ external_id_field))))).

Definition submit_request (job_id : json) : request :=
  mkRequest (u "POST")
    (bulk_url self ++ u "job/" ++ py_format py_repr job_id ++ u "/batch") hs
    (Some (batch_body data operation)).

Definition close_request (job_id : json) : request :=
  mkRequest (u "POST") (bulk_url self ++ u "job/" ++ py_format py_repr job_id) hs
    (Some (JStr (json_dumps (JDict [ (u "state", JStr (u "Closed")) ])))).

Definition status_request (job_id batch_id : json) : request :=
  mkRequest (u "GET")
    (bulk_url self ++ u "job/" ++ py_format py_repr job_id ++ u "/batch/"
     ++ py_format py_repr batch_id) hs None.





End Lifecycle.

(** The POST requests of a record, in order. *)
Definition posts (evs : list event) : list request :=
  flat_map (fun e =>
              match e with
              | Call rq _ => if str_eqb (req_method rq) (u "POST") then [rq] else []
              | Sleep _ | Printed _ => []
              end) evs.

(** ** Sessions used in the examples *)

(** A session that answers the n-th request with the n-th response of a
    script, and fails once the script is used up. *)
Definition calls_so_far (past : list event) : nat :=
  length (filter (fun e => match e with Call _ _ => true | _ => false end) past).

Definition scripted (script : list response) : Session :=
  fun past _ =>
    match nth_error script (calls_so_far past) with
    | Some result => Responded result
    | None => RequestFailed
    end.

(** A session that gives every request the same answer. *)
Definition constant (result : response) : Session := fun _ _ => Responded result.

Definition example_url : str := u "https://na1.salesforce.com/services/async/38.0/".

Definition ok (body : string) : response := mkResponse 200 example_url (dq body).

(** An organisation whose batch stays in the state [NotProcessed]. *)
Definition not_processed_org : SFBulkType :=
  mkSFBulkType (u "Lead") example_url
    (constant (ok "{'id':'751','jobId':'750','state':'NotProcessed'}")).

Definition start : world := mkWorld [(u "X-SFDC-Session", u "00D")] [].

(** An organisation whose batch is queued, then in progress, then
    completed, and whose result lacks the comma between its two records. *)
Definition insert_script : list response :=
  [ ok "{'id':'750','operation':'insert','object':'Lead','state':'Open'}";
    ok "{'id':'751','jobId':'750','state':'Queued'}";
    ok "{'id':'750','state':'Closed'}";
    ok "{'id':'751','jobId':'750','state':'Queued'}";
    ok "{'id':'751','jobId':'750','state':'InProgress'}";
    ok "{'id':'751','jobId':'750','state':'Completed'}";
    ok "[{'success':true,'id':'00Q1'}{'success':true,'id':'00Q2'}]" ].

Definition insert_org : SFBulkType :=
  mkSFBulkType (u "Lead") example_url (scripted insert_script).

Definition two_leads : json :=
  JList [ JDict [(u "LastName", JStr (u "Smith"))];
          JDict [(u "LastName", JStr (u "Jones"))] ].

(** An organisation that answers a query with one result set. *)
Definition query_script : list response :=
  [ ok "{'id':'750','operation':'query','object':'Lead','state':'Open'}";
    ok "{'id':'751','jobId':'750','state':'Queued'}";
    ok "{'id':'750','state':'Closed'}";
    ok "{'id':'751','jobId':'750','state':'Completed'}";
    ok "['752','753']";
    ok "[{'Id':'00Q1'},{'Id':'00Q2'}]" ].

Definition query_org : SFBulkType :=
  mkSFBulkType (u "Lead") example_url (scripted query_script).

(** An organisation whose result text is cut short. *)
Definition truncated_org : SFBulkType :=
  mkSFBulkType (u "Lead") example_url (constant (ok "[{'success':true,'id':")).

(** An organisation that answers the two requests of a query's result
    retrieval. *)
Definition result_sets_org : SFBulkType :=
  mkSFBulkType (u "Lead") example_url
    (scripted [ ok "['752','753']"; ok "[{'Id':'00Q1'},{'Id':'00Q2'}]" ]).

(** ** [SFBulkHandler] *)

(** The header mapping that [SFBulkHandler.__init__] builds. *)
Definition bulk_headers (session_id : str) : dict str :=
  [ (u "Content-Type", u "application/json");
    (u "X-SFDC-Session", session_id);
    (u "X-PrettyPrint", u "1") ].

Record SFBulkHandler := mkSFBulkHandler {
  handler_session_id : str;
  handler_session : Session;
  handler_bulk_url : str
}.

(** [SFBulkHandler.__init__]: the handler, and the state in which its
    header mapping has just been built. *)
Definition SFBulkHandler_init (session_id bulk_url_ : str) (session_ : Session)
    (w : world) : SFBulkHandler * world :=
  (mkSFBulkHandler session_id session_ bulk_url_,
   mkWorld (bulk_headers session_id) (log w)).

(** [SFBulkHandler.__getattr__]: the type handle shares the session and
    the header mapping of the handler. *)
Definition SFBulkHandler_getattr (self : SFBulkHandler) (name : str) : SFBulkType :=
  mkSFBulkType name (handler_bulk_url self) (handler_session self).

(** ** The messages of the exception classes *)

Section Messages.

Variable py_repr : json -> str.

(** [SalesforceResourceNotFound.__str__] *)
Definition SalesforceResourceNotFound_str (e : SalesforceError) : str :=
  u "Resource " ++ err_resource_name e ++ u " Not Found. Response content: "
  ++ py_format py_repr (err_content e).

(** [SalesforceGeneralError.__str__] *)
Definition SalesforceGeneralError_str (e : SalesforceError) : str :=
  u "Error Code " ++ dec_Z (err_status e) ++ u ". Response content: "
  ++ py_format py_repr (err_content e).

End Messages.

(** * [simple_salesforce/login.py] *)

Module Login.

Inductive error : Type :=
| SalesforceAuthenticationFailed (code message : json)
| AttributeError
| KeyError (key : json)
| TypeError
| IndexError
| ValueError (e : JSONDecodeError)
| RecursionError
| RequestException
| XmlError.

Inductive result (A : Type) : Type :=
| Ok (a : A)
| Raise (e : error).

Arguments Ok {A} a.
Arguments Raise {A} e.

Definition and_then {A B} (r : result A) (k : A -> result B) : result B :=
  match r with
  | Ok a => k a
  | Raise e => Raise e
  end.

(** [s.replace(old, new)]: the occurrences of [old] are replaced from left
    to right, without overlap.  [skip] counts the characters of a matched
    occurrence that are still to be passed over. *)
Fixpoint replace_from (old new s : str) (skip : nat) : str :=
  match s with
  | [] => []
  | c :: rest =>
      match skip with
      | S k => replace_from old new rest k
      | 0 =>
          match strip_prefix old s with
          | Some _ => new ++ replace_from old new rest (length old - 1)
          | None => c :: replace_from old new rest 0
          end
      end
  end.

Definition replace (s old new : str) : str :=
  match old with
  | [] => new ++ flat_map (fun c => c :: new) s
  | _ => replace_from old new s 0
  end.

(** [s.split(sep)[0]] for a separator of one character. *)
Fixpoint split_first (s : str) (sep : N) : str :=
  match s with
  | [] => []
  | c :: rest => if (c =? sep)%N then [] else c :: split_first rest sep
  end.

Definition DEFAULT_CLIENT_ID_PREFIX : str := u "RestForce".

Definition cleanseInstanceUrl (instance_url : str) : str :=
  replace
    (split_first
       (replace (replace instance_url (u "http://") []) (u "https://") [])
       (ch "/"))
    (u "-api") [].

(** [cleanseInstanceUrl] on a value that may not be a string: anything
    else has no [replace]. *)
Definition cleanse (v : json) : result str :=
  match v with
  | JStr s => Ok (cleanseInstanceUrl s)
  | _ => Raise AttributeError
  end.

(** [html.escape(s)], quotes included. *)
Definition escape (s : str) : str :=
  replace
    (replace
       (replace
          (replace (replace s (u "&") (u "&amp;")) (u "<") (u "&lt;"))
          (u ">") (u "&gt;"))
       [34%N] (u "&quot;"))
    (u "'") (u "&#x27;").

(** [escape] on an argument that may be [None]. *)
Definition escape_argument (a : option str) : result (option str) :=
  match a with
  | Some s => Ok (Some (escape s))
  | None => Raise AttributeError
  end.

(** The SOAP envelope of the login with a security token. *)
Definition token_body (client_id username password token : str) : str :=
  dq "<?xml version='1.0' encoding='utf-8' ?>
        <env:Envelope
                xmlns:xsd='http://www.w3.org/2001/XMLSchema'
                xmlns:xsi='http://www.w3.org/2001/XMLSchema-instance'
                xmlns:env='http://schemas.xmlsoap.org/soap/envelope/'
                xmlns:urn='urn:partner.soap.sforce.com'>
            <env:Header>
                <urn:CallOptions>
                    <urn:client>"
  ++ client_id
  ++ dq "</urn:client>
                    <urn:defaultNamespace>sf</urn:defaultNamespace>
                </urn:CallOptions>
            </env:Header>
            <env:Body>
                <n1:login xmlns:n1='urn:partner.soap.sforce.com'>
                    <n1:username>"
  ++ username
  ++ dq "</n1:username>
                    <n1:password>"
  ++ password
  ++ token
  ++ dq "</n1:password>
                </n1:login>
            </env:Body>
        </env:Envelope>".

(** The SOAP envelope of the login with an organisation id under IP filtering. *)
Definition organization_body (client_id organizationId username password : str) : str :=
  dq "<?xml version='1.0' encoding='utf-8' ?>
        <soapenv:Envelope
                xmlns:soapenv='http://schemas.xmlsoap.org/soap/envelope/'
                xmlns:urn='urn:partner.soap.sforce.com'>
            <soapenv:Header>
                <urn:CallOptions>
                    <urn:client>"
  ++ client_id
  ++ dq "</urn:client>
                    <urn:defaultNamespace>sf</urn:defaultNamespace>
                </urn:CallOptions>
                <urn:LoginScopeHeader>
                    <urn:organizationId>"
  ++ organizationId
  ++ dq "</urn:organizationId>
                </urn:LoginScopeHeader>
            </soapenv:Header>
            <soapenv:Body>
                <urn:login>
                    <urn:username>"
  ++ username
  ++ dq "</urn:username>
                    <urn:password>"
  ++ password
  ++ dq "</urn:password>
                </urn:login>
            </soapenv:Body>
        </soapenv:Envelope>".

(** The SOAP envelope of the login with a user name and a password alone. *)
Definition plain_body (client_id username password : str) : str :=
  dq "<?xml version='1.0' encoding='utf-8' ?>
        <soapenv:Envelope
                xmlns:soapenv='http://schemas.xmlsoap.org/soap/envelope/'
                xmlns:urn='urn:partner.soap.sforce.com'>
            <soapenv:Header>
                <urn:CallOptions>
                    <urn:client>"
  ++ client_id
  ++ dq "</urn:client>
                    <urn:defaultNamespace>sf</urn:defaultNamespace>
                </urn:CallOptions>
            </soapenv:Header>
            <soapenv:Body>
                <urn:login>
                    <urn:username>"
  ++ username
  ++ dq "</urn:username>
                    <urn:password>"
  ++ password
  ++ dq "</urn:password>
                </urn:login>
            </soapenv:Body>
        </soapenv:Envelope>".

(** [len(v)], [v[0]], [v[key]] and [v.get(key)] on a decoded body. *)
Definition len (v : json) : result nat :=
  match v with
  | JList l => Ok (length l)
  | JStr s => Ok (length s)
  | JDict d => Ok (length d)
  | _ => Raise TypeError
  end.

Definition first (v : json) : result json :=
  match v with
  | JList (x :: _) => Ok x
  | JList [] => Raise IndexError
  | JStr (c :: _) => Ok (JStr [c])
  | JStr [] => Raise IndexError
  | JDict _ => Raise (KeyError (JInt 0))
  | _ => Raise TypeError
  end.

Definition getitem (v : json) (key : string) : result json :=
  match v with
  | JDict d =>
      match dict_get d (u key) with
      | Some x => Ok x
      | None => Raise (KeyError (JStr (u key)))
      end
  | _ => Raise TypeError
  end.

Definition get (v : json) (key : string) : result json :=
  match v with
  | JDict d =>
      match dict_get d (u key) with
      | Some x => Ok x
      | None => Ok JNull
      end
  | _ => Raise AttributeError
  end.

(** [response.json()] *)
Definition response_json (response_ : response) : result json :=
  match json_loads (text response_) with
  | Decoded v => Ok v
  | DecodeFailed e => Raise (ValueError e)
  | DecodeTooDeep => Raise RecursionError
  end.

(** What a login did: the requests it sent and how it ended. *)
Record attempt := mkAttempt {
  sent : list request;
  ended : result (json * str)
}.

Section SalesforceLogin.

(** [getUniqueElementValueFromXmlString] of [simple_salesforce/util.py],
    which is not among the sources: the content of the first element of
    that name in a response body, [None] when there is none. *)
Variable getUniqueElementValueFromXmlString : str -> string -> result json.

(** [(session or requests).post]: the answer to the one request of a
    login. *)
Variable post : request -> reply.

Definition oauth_request (rest_url consumer_id consumer_secret refresh_token : str)
  : request :=
  mkRequest (u "POST") rest_url
    [ (u "content-type", u "application/x-www-form-urlencoded") ]
    (Some (JDict [ (u "grant_type", JStr (u "refresh_token"));
                   (u "client_id", JStr consumer_id);
                   (u "client_secret", JStr consumer_secret);
                   (u "refresh_token", JStr refresh_token) ])).

Definition soap_request (soap_url login_soap_request_body : str) : request :=
  mkRequest (u "POST") soap_url
    [ (u "content-type", u "text/xml");
      (u "charset", u "UTF-8");
      (u "SOAPAction", u "login") ]
    (Some (JStr login_soap_request_body)).

(** The end of the refresh-token flow, from the response on. *)
Definition oauth_answer (response_ : response) : result (json * str) :=
  and_then (response_json response_) (fun response_data =>
  if negb (status_code response_ =? 200)%Z then
    and_then (len response_data) (fun n =>
    and_then (if 0 <? n then first response_data else Ok response_data)
      (fun response_data =>
    and_then (getitem response_data "errorCode") (fun code =>
    and_then (getitem response_data "message") (fun message =>
    Raise (SalesforceAuthenticationFailed code message)))))
  else
    and_then (get response_data "access_token") (fun session_id =>
    and_then (get response_data "instance_url") (fun instance_url =>
    and_then (cleanse instance_url) (fun sf_instance =>
    Ok (session_id, sf_instance))))).

(** The end of the SOAP flows, from the response on. *)
Definition soap_answer (response_ : response) : result (json * str) :=
  if negb (status_code response_ =? 200)%Z then
    and_then (getUniqueElementValueFromXmlString (text response_) "sf:exceptionCode")
      (fun except_code =>
    and_then (getUniqueElementValueFromXmlString (text response_) "sf:exceptionMessage")
      (fun except_msg =>
    Raise (SalesforceAuthenticationFailed except_code except_msg)))
  else
    and_then (getUniqueElementValueFromXmlString (text response_) "sessionId")
      (fun session_id =>
    and_then (getUniqueElementValueFromXmlString (text response_) "serverUrl")
      (fun server_url =>
    and_then (cleanse server_url) (fun sf_instance =>
    Ok (session_id, sf_instance)))).

(** ["{}".format(a)] for an argument that may be [None]. *)
Definition format_argument (a : option str) : str :=
  match a with
  | Some s => s
  | None => u "None"
  end.

(** The body of the SOAP login, chosen by the arguments that are given. *)
Definition soap_body (client_id : str) (username password : option str)
    (security_token organizationId : option str) : result str :=
  match security_token with
  | Some token =>
      Ok (token_body client_id (format_argument username) (format_argument password)
            token)
  | None =>
      match organizationId with
      | Some organization =>
          Ok (organization_body client_id organization (format_argument username)
                (format_argument password))
      | None =>
          match username, password with
          | Some username_, Some password_ =>
              Ok (plain_body client_id username_ password_)
          | _, _ =>
              Raise (SalesforceAuthenticationFailed
                       (JStr (u "INVALID AUTH"))
                       (JStr (u "You must submit either a security token or organizationId for authentication")))
          end
      end
  end.

Definition send (rq : request) (answer : response -> result (json * str)) : attempt :=
  match post rq with
  | Responded response_ => mkAttempt [rq] (answer response_)
  | RequestFailed => mkAttempt [rq] (Raise RequestException)
  end.

Definition SalesforceLogin
    (username password security_token refresh_token consumer_id consumer_secret
       organizationId : option str)
    (sandbox : bool) (sf_version : str) (client_id : option str) : attempt :=
  let domain := if sandbox then u "test" else u "login" in
  let soap_url := u "https://" ++ domain ++ u ".salesforce.com/services/Soap/u/"
                  ++ sf_version in
  let rest_url := u "https://" ++ domain ++ u ".salesforce.com/services/oauth2/token" in
  let client_id :=
    match client_id with
    | Some (c :: app_name) => DEFAULT_CLIENT_ID_PREFIX ++ u "/" ++ c :: app_name
    | Some [] | None => DEFAULT_CLIENT_ID_PREFIX
    end in
  match refresh_token, consumer_id, consumer_secret with
  | Some refresh_token_, Some consumer_id_, Some consumer_secret_ =>
      send (oauth_request rest_url consumer_id_ consumer_secret_ refresh_token_)
           oauth_answer
  | _, _, _ =>
      match escape_argument username with
      | Raise e => mkAttempt [] (Raise e)
      | Ok username =>
          match escape_argument password with
          | Raise e => mkAttempt [] (Raise e)
          | Ok password =>
              match soap_body client_id username password security_token
                      organizationId with
              | Raise e => mkAttempt [] (Raise e)
              | Ok login_soap_request_body =>
                  send (soap_request soap_url login_soap_request_body) soap_answer
              end
          end
      end
  end.

End SalesforceLogin.

End Login.

(** ** Definitions used to state the further properties *)






(** An organisation whose batch has failed by its first status read. *)
Definition failed_script : list response :=
  [ ok "{'id':'750','state':'Open'}";
    ok "{'id':'751','jobId':'750','state':'Queued'}";
    ok "{'id':'750','state':'Closed'}";
    ok "{'id':'751','jobId':'750','state':'Failed'}";
    ok "[{'success':false,'errors':[{'message':'bad'}]}]" ].

Definition failed_org : SFBulkType :=
  mkSFBulkType (u "Lead") example_url (scripted failed_script).

(** The five replacements of [html.escape] read as one substitution. *)
Definition escape_character (c : N) : str :=
  if (c =? 38)%N then u "&amp;"
  else if (c =? 60)%N then u "&lt;"
  else if (c =? 62)%N then u "&gt;"
  else if (c =? 34)%N then u "&quot;"
  else if (c =? 39)%N then u "&#x27;"
  else [c].

(** ** Examples of logins *)

Definition token_url : str := u "https://login.salesforce.com/services/oauth2/token".

Definition granted : response :=
  mkResponse 200 token_url
    (dq "{'access_token':'00D!AQ','instance_url':'https://na1-api.salesforce.com/'}").

Definition refused : response :=
  mkResponse 400 token_url
    (dq "[{'errorCode':'invalid_grant','message':'expired access/refresh token'}]").

Definition answers (r : response) : request -> reply := fun _ => Responded r.

(** An XML reader for the examples: it finds the two elements of a
    successful SOAP answer and no others, whatever the text. *)
Definition example_elements (content : str) (tag : string) : Login.result json :=
  if String.eqb tag "sessionId" then Login.Ok (JStr (u "00D!AQ"))
  else if String.eqb tag "serverUrl" then
    Login.Ok (JStr (u "https://na1-api.salesforce.com/services/Soap/u/38.0/00D"))
  else Login.Ok JNull.

Definition soap_granted : response :=
  mkResponse 200 (u "https://login.salesforce.com/services/Soap/u/38.0")
    (u "<sessionId>00D!AQ</sessionId>").
(** * Properties *)

Unset Implicit Arguments.

(** ** Strings and dictionaries *)

Lemma str_eqb_refl (a : str) : str_eqb a a = true.
Proof.
  induction a as [|x a IH]; simpl; [reflexivity|].
  now rewrite N.eqb_refl, IH.
Qed.

Lemma str_eqb_eq (a b : str) : str_eqb a b = true <-> a = b.
Proof.
  split; [|intros ->; apply str_eqb_refl].
  revert b; induction a as [|x a IH]; intros [|y b]; simpl; try discriminate; auto.
  intros H; apply andb_true_iff in H as [Hx Hab].
  apply N.eqb_eq in Hx; subst; f_equal; auto.
Qed.

Lemma str_eqb_neq (a b : str) : str_eqb a b = false <-> a <> b.
Proof.
  split.
  - intros H ->; rewrite str_eqb_refl in H; discriminate.
  - intros H; destruct (str_eqb a b) eqn:E; [|reflexivity].
    apply str_eqb_eq in E; contradiction.
Qed.

Lemma dict_update_empty {V} (d : dict V) : dict_update d [] = d.
Proof. reflexivity. Qed.

(** ** The decoder never uses up its budgets *)








Lemma decode_uXXXX_bounds s pos v : _decode_uXXXX s pos = Some v -> pos + 5 <= length s.
Proof.
  unfold _decode_uXXXX, slice; intros H.
  assert (Hlen : length (map hex_value (firstn (pos + 5 - (pos + 1)) (skipn (pos + 1) s)))
                 = 4).
  { destruct (map hex_value _) as [|[a|] [|[b|] [|[c|] [|[d|] [|? ?]]]]];
      try discriminate; reflexivity. }
  rewrite length_map, length_firstn, length_skipn in Hlen; lia.
Qed.
















(** *** The decoder on sample texts *)

Example loads_values :
  json_loads (dq "[1, -2.5e3, 'a\u00e9', null, true, {'k': [], 'k': false}]")
  = Decoded (JList [ JInt 1; JFloat (u "-2.5e3"); JStr [97; 233]%N; JNull; JBool true;
                     JDict [(u "k", JBool false)] ]).
Proof. vm_compute; reflexivity. Qed.

Example loads_missing_comma :
  json_loads (dq "[{'a':1}{'b':2}]")
  = DecodeFailed (mkJSONDecodeError (u "Expecting ',' delimiter") 1 9 8).
Proof. vm_compute; reflexivity. Qed.

Example loads_second_document :
  json_loads (dq "{'a':1}{'b':2}")
  = DecodeFailed (mkJSONDecodeError (u "Extra data") 1 8 7).
Proof. vm_compute; reflexivity. Qed.

Example loads_truncated :
  json_loads (dq "{'a':") = DecodeFailed (mkJSONDecodeError (u "Expecting value") 1 6 5).
Proof. vm_compute; reflexivity. Qed.

Example loads_second_line :
  error_text (make_error (u "Expecting ',' delimiter") [91; 49; 10; 50; 93]%N 3)
  = u "Expecting ',' delimiter: line 2 column 1 (char 3)".
Proof. vm_compute; reflexivity. Qed.

Example dumps_payload :
  json_dumps (JDict (create_job_payload (u "upsert") (u "Lead") JNull))
  = dq "{'operation': 'upsert', 'object': 'Lead', 'contentType': 'JSON', 'externalIdFieldName': null}".
Proof. vm_compute; reflexivity. Qed.

(** ** Running a computation *)

Lemma bind_returned {A B} (m : M A) (k : A -> M B) w a w1 :
  m w = (Returned a, w1) -> bind m k w = k a w1.
Proof. unfold bind; now intros ->. Qed.

Lemma bind_raised {A B} (m : M A) (k : A -> M B) w e w1 :
  m w = (Raised e, w1) -> bind m k w = (Raised e, w1).
Proof. unfold bind; now intros ->. Qed.

Lemma bind_diverged {A B} (m : M A) (k : A -> M B) w w1 :
  m w = (Diverged, w1) -> bind m k w = (Diverged, w1).
Proof. unfold bind; now intros ->. Qed.

Lemma bind_inv_returned {A B} (m : M A) (k : A -> M B) w b w2 :
  bind m k w = (Returned b, w2) ->
  exists a w1, m w = (Returned a, w1) /\ k a w1 = (Returned b, w2).
Proof.
  unfold bind; destruct (m w) as [[a|e|] w1]; intros H; try discriminate.
  now exists a, w1.
Qed.

(** ** The exception router *)

Lemma exc_map_get_taxonomy (status : Z) :
  exc_map_get status SalesforceGeneralError = taxonomy status.
Proof.
  unfold exc_map_get, taxonomy, exc_map; cbn [find fst snd].
  rewrite !(Z.eqb_sym _ status).
  repeat match goal with
         | |- context [(status =? ?b)%Z] => destruct (status =? b)%Z; try reflexivity
         end.
Qed.

(** C6. The exception router never returns normally.  Whatever response it
    is handed, it raises: [SalesforceMoreThanOneRecord] for status 300,
    [SalesforceMalformedRequest] for 400, [SalesforceExpiredSession] for
    401, [SalesforceRefusedRequest] for 403, [SalesforceResourceNotFound]
    for 404 and [SalesforceGeneralError] for every other status.  The
    raised error carries the request URL, the status code, the resource
    name and the response body, parsed when it parses and as raw text
    otherwise; the shared state is left as it was. *)
Theorem exception_handler_always_raises (result : response) (name : str) (w : world) :
  _exception_handler result name w =
    (Raised (ESalesforce
               {| err_class := taxonomy (status_code result);
                  err_url := url result;
                  err_status := status_code result;
                  err_resource_name := name;
                  err_content := captured_body result |}), w).
Proof.
  unfold _exception_handler, raise, captured_body.
  rewrite exc_map_get_taxonomy.
  destruct (json_loads (text result)); reflexivity.
Qed.

(** ** The HTTP call wrapper *)

(** One call: the headers are merged, the request is sent and recorded,
    and the status decides between the response and an error. *)
Lemma call_salesforce_run url_ method session_ additional_headers data w :
  let hs := dict_update (headers w) (extra_headers additional_headers) in
  let rq := mkRequest method url_ hs data in
  let w1 := mkWorld hs (log w ++ [Call rq (session_ (log w) rq)]) in
  _call_salesforce url_ method session_ additional_headers data w =
    match session_ (log w) rq with
    | Responded result =>
        if (300 <=? status_code result)%Z
        then (Raised (classified result), w1)
        else (Returned result, w1)
    | RequestFailed => (Raised ERequestException, w1)
    end.
Proof.
  unfold _call_salesforce, bind, headers_update, session_request, extra_headers.
  cbn [headers log].
  destruct (session_ _ _) as [result|]; [|reflexivity].
  destruct (300 <=? status_code result)%Z; [|reflexivity].
  unfold _exception_handler, raise, classified, captured_body.
  rewrite exc_map_get_taxonomy.
  destruct (json_loads (text result)); reflexivity.
Qed.

(** C5, as the code has it.  When the session answers a request with a
    response, the wrapper returns that response as a value exactly when its
    status code is below 300; a status of 300 or above always ends in the
    classified error of the exception router and never in a value. *)
Theorem call_salesforce_returns_below_300
    url_ method session_ additional_headers data w result :
  let hs := dict_update (headers w) (extra_headers additional_headers) in
  let rq := mkRequest method url_ hs data in
  let w1 := mkWorld hs (log w ++ [Call rq (Responded result)]) in
  session_ (log w) rq = Responded result ->
  ((status_code result < 300)%Z ->
     _call_salesforce url_ method session_ additional_headers data w
       = (Returned result, w1))
  /\ ((300 <= status_code result)%Z ->
     _call_salesforce url_ method session_ additional_headers data w
       = (Raised (classified result), w1))
  /\ (forall result' w',
     _call_salesforce url_ method session_ additional_headers data w
       = (Returned result', w') ->
     result' = result /\ (status_code result < 300)%Z).
Proof.
  intros hs rq w1 Hreply.
  pose proof (call_salesforce_run url_ method session_ additional_headers data w) as Hrun.
  cbv zeta in Hrun; fold hs rq in Hrun; rewrite Hreply in Hrun; fold w1 in Hrun.
  destruct (300 <=? status_code result)%Z eqn:E;
    [apply Z.leb_le in E | apply Z.leb_gt in E]; rewrite Hrun.
  - split; [lia|]. split; [reflexivity|]. intros ? ? H; discriminate.
  - split; [reflexivity|]. split; [lia|].
    intros ? ? H; inversion H; subst; split; [reflexivity|lia].
Qed.

(** C5, as the specification states it, fails: a response with status 101
    is not a 2xx response and is returned as a value all the same. *)
Lemma call_salesforce_returns_status_101 :
  ~ (forall url_ method session_ additional_headers data w result w',
       _call_salesforce url_ method session_ additional_headers data w
         = (Returned result, w') ->
       (200 <= status_code result < 300)%Z).
Proof.
  intros H.
  specialize (H (u "https://na1.salesforce.com/services/async/38.0/job") (u "GET")
                (fun _ _ => Responded (mkResponse 101 [] []))
                None None (mkWorld [] []) _ _ eq_refl).
  simpl in H; lia.
Qed.

Lemma call_salesforce_plain url_ method session_ data w :
  let rq := mkRequest method url_ (headers w) data in
  let rp := session_ (log w) rq in
  _call_salesforce url_ method session_ None data w =
    (match rp with
     | Responded result =>
         if (300 <=? status_code result)%Z then Raised (classified result)
         else Returned result
     | RequestFailed => Raised ERequestException
     end, called w rq rp).
Proof.
  intros rq rp.
  pose proof (call_salesforce_run url_ method session_ None data w) as Hrun.
  cbv zeta in Hrun; cbn [extra_headers] in Hrun; rewrite dict_update_empty in Hrun.
  fold rq rp in Hrun; rewrite Hrun; unfold called.
  destruct rp as [result|]; [|reflexivity].
  destruct (300 <=? status_code result)%Z; reflexivity.
Qed.

(** A call without extra headers followed by [result.json()]. *)
Lemma call_then_json url_ method session_ data w :
  let rq := mkRequest method url_ (headers w) data in
  let rp := session_ (log w) rq in
  (result <- _call_salesforce url_ method session_ None data ;; response_json result) w
    = (decoded_reply rp, called w rq rp).
Proof.
  intros rq rp; unfold bind.
  rewrite call_salesforce_plain; fold rq rp.
  unfold decoded_reply, response_json.
  destruct rp as [result|]; [|reflexivity].
  destruct (300 <=? status_code result)%Z; [reflexivity|].
  destruct (json_loads (text result)); reflexivity.
Qed.

(** ** Job creation *)

Lemma create_job_run self operation object_name_ external_id_field w :
  let rq := mkRequest (u "POST") (bulk_url self ++ u "job") (headers w)
              (Some (JStr (json_dumps
                 (JDict (create_job_payload operation object_name_ external_id_field))))) in
  let rp := session self (log w) rq in
  _create_job self operation object_name_ external_id_field w
    = (decoded_reply rp, called w rq rp).
Proof. intros; unfold _create_job; apply call_then_json. Qed.

(** C7. Every job-creation call sends exactly one request, a POST to the
    [job] resource whose body is the serialised creation payload.  That
    payload holds the field [externalIdFieldName] if and only if the
    operation is [upsert], and then with the supplied external id field as
    its value; for every other operation, and so for each of [insert],
    [update], [delete], [hardDelete] and [query], the payload is exactly
    [operation], [object] and the fixed [contentType]. *)
Theorem create_job_external_id_field self operation object_name_ external_id_field w :
  let payload := create_job_payload operation object_name_ external_id_field in
  let basic := [ (u "operation", JStr operation);
                 (u "object", JStr object_name_);
                 (u "contentType", JStr (u "JSON")) ] in
  (exists rp,
     log (snd (_create_job self operation object_name_ external_id_field w))
       = log w ++ [Call (mkRequest (u "POST") (bulk_url self ++ u "job") (headers w)
                           (Some (JStr (json_dumps (JDict payload))))) rp])
  /\ ((exists v, dict_get payload (u "externalIdFieldName") = Some v)
      <-> operation = u "upsert")
  /\ (operation = u "upsert" ->
      payload = basic ++ [(u "externalIdFieldName", external_id_field)])
  /\ (operation <> u "upsert" -> payload = basic)
  /\ Forall (fun op => create_job_payload (u op) object_name_ external_id_field
                       = [ (u "operation", JStr (u op));
                           (u "object", JStr object_name_);
                           (u "contentType", JStr (u "JSON")) ])
            non_upsert_operations.
Proof.
  intros payload basic.
  split; [|split; [|split; [|split]]].
  - rewrite create_job_run; cbn [snd called log]. eexists; reflexivity.
  - subst payload; unfold create_job_payload.
    destruct (str_eqb operation (u "upsert")) eqn:E.
    + apply str_eqb_eq in E. split; [auto|]. intros _. now exists external_id_field.
    + apply str_eqb_neq in E. split; [|contradiction].
      intros [v Hv]; vm_compute in Hv; discriminate.
  - intros ->; reflexivity.
  - intros Hne; apply str_eqb_neq in Hne.
    subst payload; unfold create_job_payload; now rewrite Hne.
  - repeat constructor.
Qed.

(** ** Batch submission *)

Lemma add_batch_run py_repr self job_id data operation w :
  let rq := mkRequest (u "POST")
              (bulk_url self ++ u "job/" ++ py_format py_repr job_id ++ u "/batch")
              (headers w) (Some (batch_body data operation)) in
  let rp := session self (log w) rq in
  _add_batch py_repr self job_id data operation w = (decoded_reply rp, called w rq rp).
Proof. intros; unfold _add_batch; apply call_then_json. Qed.


(** ** Result retrieval for queries *)

Lemma status_below_300 (result : response) :
  (status_code result < 300)%Z -> (300 <=? status_code result)%Z = false.
Proof. intros H; apply Z.leb_gt; exact H. Qed.

(** C9. In the result retrieval of a query, once the batch's result
    resource has answered with a list of result-set identifiers: if the
    list is empty it is returned as it is and no further request is
    issued; if it is not empty exactly one more request is issued, a GET to
    the result URL followed by a slash and the first identifier, and the
    outcome of the retrieval is the decoded body of that response.  The
    identifiers after the first are not fetched. *)
Theorem query_results_follow_first_identifier
    py_repr fuel self job_id batch_id w result ids :
  let url_ := result_url py_repr self job_id batch_id in
  let rq := mkRequest (u "GET") url_ (headers w) None in
  let w1 := called w rq (Responded result) in
  session self (log w) rq = Responded result ->
  (status_code result < 300)%Z ->
  json_loads (text result) = Decoded (JList ids) ->
  match ids with
  | [] =>
      _get_batch_results py_repr fuel self job_id batch_id (u "query") w
        = (Returned (JList []), w1)
  | first :: _ =>
      let rq2 := mkRequest (u "GET") (url_ ++ u "/" ++ py_format py_repr first)
                   (headers w) None in
      let rp2 := session self (log w1) rq2 in
      _get_batch_results py_repr fuel self job_id batch_id (u "query") w
        = (decoded_reply rp2,
           mkWorld (headers w) (log w ++ [Call rq (Responded result); Call rq2 rp2]))
      /\ (forall query_result v,
            rp2 = Responded query_result ->
            (status_code query_result < 300)%Z ->
            json_loads (text query_result) = Decoded v ->
            decoded_reply rp2 = Returned v)
  end.
Proof.
  intros url_ rq w1 Hreply Hstatus Hjson.
  assert (Hfirst : _call_salesforce url_ (u "GET") (session self) None None w
                   = (Returned result, w1)).
  { rewrite call_salesforce_plain; fold rq; rewrite Hreply.
    now rewrite (status_below_300 _ Hstatus). }
  unfold _get_batch_results; fold (result_url py_repr self job_id batch_id); fold url_.
  rewrite (bind_returned _ _ _ _ _ Hfirst).
  change (str_eqb (u "query") (u "query")) with true; cbv iota.
  unfold response_json; rewrite Hjson.
  destruct ids as [|first rest].
  - reflexivity.
  - unfold bind at 1 2 3 4; cbn [ret py_len getitem0 length Nat.ltb Nat.leb].
    fold (response_json).
    split.
    + rewrite call_then_json. subst w1; unfold called; cbn [headers log].
      rewrite <- app_assoc; reflexivity.
    + intros query_result v -> Hs Hv; unfold decoded_reply.
      now rewrite (status_below_300 _ Hs), Hv.
Qed.

(** ** The shared header mapping *)

Create HintDb frame.

Lemma keeps_ret {A} (a : A) : keeps_headers (ret a).
Proof. intros w; split; [reflexivity|]. exists []; now rewrite app_nil_r. Qed.

Lemma keeps_raise {A} (e : exn) : keeps_headers (@raise A e).
Proof. intros w; split; [reflexivity|]. exists []; now rewrite app_nil_r. Qed.

Lemma keeps_diverge {A} : keeps_headers (@diverge A).
Proof. intros w; split; [reflexivity|]. exists []; now rewrite app_nil_r. Qed.

Lemma keeps_sleep (seconds : N) : keeps_headers (sleep seconds).
Proof.
  intros w; split; [reflexivity|]. exists [Sleep seconds]; split; [reflexivity|].
  repeat constructor.
Qed.

Lemma keeps_print (line : str) : keeps_headers (print line).
Proof.
  intros w; split; [reflexivity|]. exists [Printed line]; split; [reflexivity|].
  repeat constructor.
Qed.

Lemma keeps_bind {A B} (m : M A) (k : A -> M B) :
  keeps_headers m -> (forall a, keeps_headers (k a)) -> keeps_headers (bind m k).
Proof.
  intros Hm Hk w; unfold bind.
  destruct (Hm w) as [Hh [evs [Hl Hc]]].
  destruct (m w) as [[a|e|] w1]; cbn [snd] in *.
  - destruct (Hk a w1) as [Hh' [evs' [Hl' Hc']]].
    split; [congruence|].
    exists (evs ++ evs'); split.
    + now rewrite Hl', Hl, app_assoc.
    + apply Forall_app; split; [exact Hc|]. now rewrite <- Hh.
  - split; [exact Hh|]. now exists evs.
  - split; [exact Hh|]. now exists evs.
Qed.

Lemma keeps_call url_ method session_ data :
  keeps_headers (_call_salesforce url_ method session_ None data).
Proof.
  intros w; rewrite call_salesforce_plain; cbn [snd called headers log].
  split; [reflexivity|]. eexists; split; [reflexivity|].
  repeat constructor.
Qed.

Lemma keeps_response_json result : keeps_headers (response_json result).
Proof.
  unfold response_json; destruct (json_loads (text result));
    [apply keeps_ret | apply keeps_raise | apply keeps_raise].
Qed.

Lemma keeps_getitem v key : keeps_headers (getitem v key).
Proof.
  unfold getitem; destruct v; try apply keeps_raise.
  destruct (dict_get d (u key)); [apply keeps_ret | apply keeps_raise].
Qed.

Lemma keeps_getitem0 v : keeps_headers (getitem0 v).
Proof.
  unfold getitem0; destruct v as [| | | |s|l|d]; try apply keeps_raise.
  - destruct s; [apply keeps_raise | apply keeps_ret].
  - destruct l; [apply keeps_raise | apply keeps_ret].
Qed.

Lemma keeps_py_len v : keeps_headers (py_len v).
Proof. unfold py_len; destruct v; try apply keeps_raise; apply keeps_ret. Qed.

Lemma keeps_py_int digits : keeps_headers (py_int digits).
Proof. unfold py_int; destruct digits; [apply keeps_raise | apply keeps_ret]. Qed.

#[local] Hint Resolve keeps_ret keeps_raise keeps_diverge keeps_sleep keeps_print
  keeps_call keeps_response_json keeps_getitem keeps_getitem0 keeps_py_len
  keeps_py_int : frame.

Ltac frame :=
  cbv zeta;
  repeat first
    [ solve [auto with frame]
    | apply keeps_bind; [|intros ?]
    | match goal with
      | |- keeps_headers (if ?c then _ else _) => destruct c
      | |- keeps_headers (match ?x with _ => _ end) => destruct x
      end ].

Lemma keeps_create_job self operation object_name_ external_id_field :
  keeps_headers (_create_job self operation object_name_ external_id_field).
Proof. unfold _create_job; frame. Qed.

Lemma keeps_close_job py_repr self job_id :
  keeps_headers (_close_job py_repr self job_id).
Proof. unfold _close_job; frame. Qed.

Lemma keeps_add_batch py_repr self job_id data operation :
  keeps_headers (_add_batch py_repr self job_id data operation).
Proof. unfold _add_batch; frame. Qed.

Lemma keeps_get_batch py_repr self job_id batch_id :
  keeps_headers (_get_batch py_repr self job_id batch_id).
Proof. unfold _get_batch; frame. Qed.

#[local] Hint Resolve keeps_create_job keeps_close_job keeps_add_batch
  keeps_get_batch : frame.

Lemma keeps_batch_state py_repr self batch :
  keeps_headers (batch_state py_repr self batch).
Proof. unfold batch_state; frame. Qed.

Lemma keeps_repair_loop fuel text_ : keeps_headers (repair_loop fuel text_).
Proof.
  revert text_; induction fuel as [|fuel IH]; intros text_; cbn [repair_loop].
  - apply keeps_diverge.
  - destruct (json_loads text_); [apply keeps_ret | | apply keeps_raise].
    apply keeps_bind; [apply keeps_print|intros _].
    destruct (pattern_fullmatch _); [|apply IH].
    apply keeps_bind; [apply keeps_py_int|intros pos; apply IH].
Qed.

#[local] Hint Resolve keeps_batch_state keeps_repair_loop : frame.

Lemma keeps_poll_loop py_repr fuel self batch wait batch_status :
  keeps_headers (poll_loop py_repr fuel self batch wait batch_status).
Proof.
  revert batch_status; induction fuel as [|fuel IH]; intros batch_status;
    cbn [poll_loop]; destruct (in_literals batch_status terminal_states);
    try apply keeps_ret; [apply keeps_diverge|].
  apply keeps_bind; [apply keeps_sleep|intros _].
  apply keeps_bind; [apply keeps_batch_state|intros st; apply IH].
Qed.

Lemma keeps_get_batch_results py_repr fuel self job_id batch_id operation :
  keeps_headers (_get_batch_results py_repr fuel self job_id batch_id operation).
Proof. unfold _get_batch_results; frame. Qed.

#[local] Hint Resolve keeps_poll_loop keeps_get_batch_results : frame.

Lemma keeps_bulk_operation py_repr fuel self object_name_ operation data
    external_id_field wait :
  keeps_headers (_bulk_operation py_repr fuel self object_name_ operation data
                   external_id_field wait).
Proof. unfold _bulk_operation; frame. Qed.

(** C10. Each of the six public operations leaves the shared header
    mapping as it found it, whatever the session answers and however the
    call ends: no call of the flow supplies additional headers, so the
    mapping after [insert], [update], [upsert], [delete], [hard_delete] and
    [query] equals the mapping before it, and every request of the
    operation was sent with that same mapping. *)
Theorem public_operations_keep_headers py_repr fuel self data external_id_field w :
  let unchanged (run : M json) :=
    headers (snd (run w)) = headers w
    /\ exists evs,
         log (snd (run w)) = log w ++ evs /\ Forall (carries (headers w)) evs in
  unchanged (insert py_repr fuel self data)
  /\ unchanged (update py_repr fuel self data)
  /\ unchanged (upsert py_repr fuel self data external_id_field)
  /\ unchanged (delete py_repr fuel self data)
  /\ unchanged (hard_delete py_repr fuel self data)
  /\ unchanged (query py_repr fuel self data).
Proof.
  cbv zeta; repeat apply conj; apply keeps_bulk_operation.
Qed.

(** ** The repair loop of the result retrieval *)

Lemma extended_nil w : extended w [] = w.
Proof. destruct w; unfold extended; cbn; now rewrite app_nil_r. Qed.

Lemma extended_extended w evs evs' :
  extended (extended w evs) evs' = extended w (evs ++ evs').
Proof. unfold extended; cbn; now rewrite app_assoc. Qed.

Lemma print_run line w : print line w = (Returned tt, extended w [Printed line]).
Proof. reflexivity. Qed.

Lemma repair_loop_decoded fuel text_ j w :
  json_loads text_ = Decoded j -> repair_loop (S fuel) text_ w = (Returned j, w).
Proof. intros H; cbn [repair_loop]; now rewrite H. Qed.

(** An error text the pattern does not match leaves the text as it is and
    the loop where it was. *)
Lemma repair_loop_unmatched fuel text_ e w :
  json_loads text_ = DecodeFailed e ->
  pattern_fullmatch (error_text e) = None ->
  repair_loop (S fuel) text_ w
    = repair_loop fuel text_ (extended w [Printed (error_text e)]).
Proof.
  intros Hload Hpat; cbn [repair_loop]; rewrite Hload, Hpat.
  unfold bind; now rewrite print_run.
Qed.

Lemma repair_loop_stuck text_ e :
  json_loads text_ = DecodeFailed e ->
  pattern_fullmatch (error_text e) = None ->
  forall fuel w,
    repair_loop fuel text_ w
      = (Diverged, extended w (repeat (Printed (error_text e)) fuel)).
Proof.
  intros Hload Hpat; induction fuel as [|fuel IH]; intros w.
  - cbn [repair_loop repeat]; now rewrite extended_nil.
  - rewrite (repair_loop_unmatched _ _ _ _ Hload Hpat), IH, extended_extended.
    reflexivity.
Qed.

(** C3, at the inputs where the code departs from it.  In the result
    retrieval of an operation other than [query], when the result text
    fails to decode with an error that the delimiter pattern does not
    match, the error is not raised to the caller: the loop prints it and
    decodes the same text again, so that for every amount of fuel the
    retrieval is still running, having printed the error once per turn. *)
Theorem get_batch_results_swallows_other_errors
    py_repr self job_id batch_id operation w result e :
  let rq := mkRequest (u "GET") (result_url py_repr self job_id batch_id)
              (headers w) None in
  operation <> u "query" ->
  session self (log w) rq = Responded result ->
  (status_code result < 300)%Z ->
  json_loads (text result) = DecodeFailed e ->
  pattern_fullmatch (error_text e) = None ->
  forall fuel,
    _get_batch_results py_repr fuel self job_id batch_id operation w
      = (Diverged,
         extended w (Call rq (Responded result)
                       :: repeat (Printed (error_text e)) fuel)).
Proof.
  intros rq Hop Hreply Hstatus Hload Hpat fuel.
  apply str_eqb_neq in Hop.
  unfold _get_batch_results; fold (result_url py_repr self job_id batch_id).
  erewrite bind_returned.
  2:{ rewrite call_salesforce_plain; fold rq; rewrite Hreply.
      rewrite (status_below_300 _ Hstatus); reflexivity. }
  rewrite Hop, (repair_loop_stuck _ _ Hload Hpat).
  unfold called, extended; cbn [headers log]; now rewrite <- app_assoc.
Qed.

(** *** Decimal numerals *)

Lemma digits_of_uint (d : Decimal.uint) (acc : nat) :
  fold_left (fun a c => (a * 10 + (c - 48))%N)
            (u (NilEmpty.string_of_uint d)) (N.of_nat acc)
  = N.of_nat (Nat.of_uint_acc d acc).
Proof.
  revert acc; induction d; intros acc; cbn [NilEmpty.string_of_uint u
    list_ascii_of_string map fold_left Nat.of_uint_acc]; [reflexivity|..];
    rewrite <- IHd; f_equal; rewrite Nat.tail_mul_spec;
    cbn [N_of_ascii N_of_digits]; cbn; lia.
Qed.

Lemma digits_value_dec_nat (n : nat) : digits_value (dec_nat n) = N.of_nat n.
Proof.
  unfold digits_value, dec_nat, NilZero.string_of_uint.
  rewrite <- (DecimalNat.Unsigned.of_to n) at 2.
  destruct (Nat.to_uint n) eqn:E; [reflexivity|..];
    rewrite <- E; apply (digits_of_uint _ 0).
Qed.

Lemma uint_all_digits (d : Decimal.uint) :
  Forall (fun c => is_digit c = true) (u (NilEmpty.string_of_uint d)).
Proof.
  induction d; cbn [NilEmpty.string_of_uint u list_ascii_of_string map];
    constructor; try reflexivity; assumption.
Qed.

Lemma dec_nat_all_digits (n : nat) : Forall (fun c => is_digit c = true) (dec_nat n).
Proof.
  unfold dec_nat, NilZero.string_of_uint.
  destruct (Nat.to_uint n) eqn:E; try (rewrite <- E; apply uint_all_digits).
  repeat constructor.
Qed.

Lemma dec_nat_not_empty (n : nat) : dec_nat n <> [].
Proof.
  unfold dec_nat, NilZero.string_of_uint.
  destruct (Nat.to_uint n); discriminate.
Qed.

Lemma py_int_dec_nat (n : nat) w : py_int (dec_nat n) w = (Returned n, w).
Proof.
  unfold py_int. pose proof (dec_nat_not_empty n) as Hne.
  destruct (dec_nat n) eqn:E; [contradiction|].
  rewrite <- E, digits_value_dec_nat, Nat2N.id; reflexivity.
Qed.

(** *** The pattern on the decoder's messages *)

Lemma strip_prefix_app (p r : str) : strip_prefix p (p ++ r) = Some r.
Proof.
  induction p as [|x p IH]; cbn [strip_prefix app]; [now destruct r|].
  now rewrite N.eqb_refl.
Qed.

Lemma span_digits_app (ds r : str) :
  Forall (fun c => is_digit c = true) ds ->
  span_digits r = ([], r) ->
  span_digits (ds ++ r) = (ds, r).
Proof.
  intros Hds Hr; induction Hds as [|c ds Hc _ IH]; cbn [app]; [exact Hr|].
  cbn [span_digits]; now rewrite Hc, IH.
Qed.

Lemma pattern_matches_delimiter_error (e : JSONDecodeError) :
  err_msg e = u "Expecting ',' delimiter" ->
  pattern_fullmatch (error_text e) = Some (dec_nat (err_pos e)).
Proof.
  intros Hmsg; unfold pattern_fullmatch, error_text; rewrite Hmsg.
  change (u "Expecting ',' delimiter: line ")
    with (u "Expecting ',' delimiter" ++ u ": line ").
  rewrite (app_assoc (u "Expecting ',' delimiter") (u ": line ")), strip_prefix_app.
  rewrite span_digits_app; [|apply dec_nat_all_digits|reflexivity]; cbn [snd].
  rewrite strip_prefix_app.
  rewrite span_digits_app; [|apply dec_nat_all_digits|reflexivity]; cbn [snd].
  change (u " (char " ++ dec_nat (err_pos e) ++ u ")")
    with (u " " ++ 40%N :: u "char " ++ dec_nat (err_pos e) ++ u ")").
  rewrite strip_prefix_app; cbn [strip_dot N.eqb Pos.eqb].
  rewrite strip_prefix_app.
  rewrite span_digits_app; [|apply dec_nat_all_digits|reflexivity].
  reflexivity.
Qed.

Lemma repair_loop_delimiter fuel text_ e w :
  json_loads text_ = DecodeFailed e ->
  err_msg e = u "Expecting ',' delimiter" ->
  repair_loop (S fuel) text_ w
    = repair_loop fuel (firstn (err_pos e) text_ ++ u "," ++ skipn (err_pos e) text_)
        (extended w [Printed (error_text e)]).
Proof.
  intros Hload Hmsg; cbn [repair_loop].
  rewrite Hload, (pattern_matches_delimiter_error _ Hmsg).
  unfold bind; now rewrite print_run, py_int_dec_nat.
Qed.

Lemma repair_loop_repairs text_ j n :
  repairs_to text_ j n ->
  forall fuel w, n < fuel -> fst (repair_loop fuel text_ w) = Returned j.
Proof.
  induction 1 as [text_ j Hload | text_ e j n Hload Hmsg _ IH];
    intros [|fuel] w Hlt; try lia.
  - now rewrite (repair_loop_decoded _ _ _ _ Hload).
  - rewrite (repair_loop_delimiter _ _ _ _ Hload Hmsg). apply IH; lia.
Qed.

(** For an operation other than [query] the retrieval is the repair loop on
    the text of the result response. *)
Lemma get_batch_results_repairs py_repr fuel self job_id batch_id operation w result :
  let rq := mkRequest (u "GET") (result_url py_repr self job_id batch_id)
              (headers w) None in
  operation <> u "query" ->
  session self (log w) rq = Responded result ->
  (status_code result < 300)%Z ->
  _get_batch_results py_repr fuel self job_id batch_id operation w
  = repair_loop fuel (text result) (extended w [Call rq (Responded result)]).
Proof.
  intros rq Hop Hreply Hstatus; apply str_eqb_neq in Hop.
  unfold _get_batch_results; fold (result_url py_repr self job_id batch_id).
  erewrite bind_returned.
  2:{ rewrite call_salesforce_plain; fold rq; rewrite Hreply.
      rewrite (status_below_300 _ Hstatus); reflexivity. }
  now rewrite Hop.
Qed.

(** C4, as the code has it.  Whenever decoding the result text fails with
    a delimiter error at some offset, the loop prints the error, inserts
    one comma at exactly that offset and decodes again; a text that decodes
    ends the loop with the decoded value; so a text that decodes after a
    number of such insertions is returned decoded once the loop has run
    that many turns and one more.  The result retrieval of an operation
    other than [query] is this loop on the text of the result response.
    In particular the text
    [[{"a":1}{"b":2}]], an array of two objects with no delimiter between
    them, fails with a delimiter error at offset 8, becomes
    [[{"a":1},{"b":2}]] and decodes after one insertion. *)
Theorem repair_loop_inserts_commas :
  (forall py_repr fuel self job_id batch_id operation w result,
     let rq := mkRequest (u "GET") (result_url py_repr self job_id batch_id)
                 (headers w) None in
     operation <> u "query" ->
     session self (log w) rq = Responded result ->
     (status_code result < 300)%Z ->
     _get_batch_results py_repr fuel self job_id batch_id operation w
     = repair_loop fuel (text result) (extended w [Call rq (Responded result)]))
  /\ (forall fuel text_ e w,
     json_loads text_ = DecodeFailed e ->
     err_msg e = u "Expecting ',' delimiter" ->
     repair_loop (S fuel) text_ w
       = repair_loop fuel
           (firstn (err_pos e) text_ ++ u "," ++ skipn (err_pos e) text_)
           (extended w [Printed (error_text e)]))
  /\ (forall fuel text_ j w,
     json_loads text_ = Decoded j -> repair_loop (S fuel) text_ w = (Returned j, w))
  /\ (forall text_ j n fuel w,
     repairs_to text_ j n -> n < fuel -> fst (repair_loop fuel text_ w) = Returned j)
  /\ (let text_ := dq "[{'a':1}{'b':2}]" in
      let e := mkJSONDecodeError (u "Expecting ',' delimiter") 1 9 8 in
      json_loads text_ = DecodeFailed e
      /\ firstn 8 text_ ++ u "," ++ skipn 8 text_ = dq "[{'a':1},{'b':2}]"
      /\ forall fuel w,
           repair_loop (S (S fuel)) text_ w
             = (Returned (JList [JDict [(u "a", JInt 1)]; JDict [(u "b", JInt 2)]]),
                extended w [Printed (error_text e)])).
Proof.
  split; [|split; [|split; [|split]]].
  - intros; now apply get_batch_results_repairs.
  - intros; now apply repair_loop_delimiter.
  - intros; now apply repair_loop_decoded.
  - intros text_ j n fuel w Hrep Hlt; now apply (repair_loop_repairs text_ j n).
  - cbv zeta.
    assert (Hload : json_loads (dq "[{'a':1}{'b':2}]")
                    = DecodeFailed (mkJSONDecodeError (u "Expecting ',' delimiter") 1 9 8))
      by (vm_compute; reflexivity).
    split; [exact Hload|]. split; [vm_compute; reflexivity|].
    intros fuel w.
    rewrite (repair_loop_delimiter _ _ _ _ Hload eq_refl).
    apply repair_loop_decoded; vm_compute; reflexivity.
Qed.

(** C4, as the specification states it, fails on its own example.  The
    text [{"a":1}{"b":2}] does not fail with a delimiter error but with
    "Extra data" at offset 7, which the pattern does not match; no comma is
    inserted and the retrieval never returns a decoded value.  A comma at
    offset 7 would not help either: the text would still not decode. *)
Lemma concatenated_objects_are_not_repaired :
  let text_ := dq "{'a':1}{'b':2}" in
  let e := mkJSONDecodeError (u "Extra data") 1 8 7 in
  json_loads text_ = DecodeFailed e
  /\ pattern_fullmatch (error_text e) = None
  /\ (forall fuel w, fst (repair_loop fuel text_ w) = Diverged)
  /\ ~ (exists fuel w j, fst (repair_loop fuel text_ w) = Returned j)
  /\ json_loads (firstn 7 text_ ++ u "," ++ skipn 7 text_) = DecodeFailed e.
Proof.
  cbv zeta.
  assert (Hload : json_loads (dq "{'a':1}{'b':2}")
                  = DecodeFailed (mkJSONDecodeError (u "Extra data") 1 8 7))
    by (vm_compute; reflexivity).
  assert (Hpat : pattern_fullmatch (error_text (mkJSONDecodeError (u "Extra data") 1 8 7))
                 = None) by (vm_compute; reflexivity).
  assert (Hstuck : forall fuel w, fst (repair_loop fuel (dq "{'a':1}{'b':2}") w) = Diverged)
    by (intros; now rewrite (repair_loop_stuck _ _ Hload Hpat)).
  split; [exact Hload|]. split; [exact Hpat|]. split; [exact Hstuck|]. split.
  - intros (fuel & w & j & H); rewrite Hstuck in H; discriminate.
  - vm_compute; reflexivity.
Qed.

(** ** The end-to-end operation *)

Lemma bind_run {A B} (m : M A) (k : A -> M B) w out w1 :
  m w = (out, w1) ->
  bind m k w = match out with
               | Returned a => k a w1
               | Raised e => (Raised e, w1)
               | Diverged => (Diverged, w1)
               end.
Proof. unfold bind; intros ->; destruct out; reflexivity. Qed.

Lemma bind_diverges {A B} (m : M A) (k : A -> M B) w :
  fst (m w) = Diverged -> fst (bind m k w) = Diverged.
Proof. unfold bind; destruct (m w) as [[a|e|] w1]; cbn; congruence. Qed.

Lemma getitem_run v key w : getitem v key w = (item v key, w).
Proof.
  unfold getitem, item; destruct v; try reflexivity.
  destruct (dict_get d (u key)); reflexivity.
Qed.


Lemma close_job_run py_repr self job_id w :
  let rq := close_request py_repr self (headers w) job_id in
  let rp := session self (log w) rq in
  _close_job py_repr self job_id w = (decoded_reply rp, called w rq rp).
Proof. intros; unfold _close_job; apply call_then_json. Qed.

Lemma get_batch_run py_repr self job_id batch_id w :
  let rq := status_request py_repr self (headers w) job_id batch_id in
  let rp := session self (log w) rq in
  _get_batch py_repr self job_id batch_id w = (decoded_reply rp, called w rq rp).
Proof. intros; unfold _get_batch; apply call_then_json. Qed.

Lemma batch_state_run py_repr self batch batch_job batch_id w :
  item batch "jobId" = Returned batch_job ->
  item batch "id" = Returned batch_id ->
  let rq := status_request py_repr self (headers w) batch_job batch_id in
  let rp := session self (log w) rq in
  batch_state py_repr self batch w = (state_read rp, called w rq rp).
Proof.
  intros Hjob Hid rq rp; unfold batch_state.
  rewrite (bind_run _ _ _ _ _ (getitem_run _ _ _)), Hjob.
  rewrite (bind_run _ _ _ _ _ (getitem_run _ _ _)), Hid.
  rewrite (bind_run _ _ _ _ _ (get_batch_run _ _ _ _ _)).
  fold rq rp; unfold state_read.
  destruct (decoded_reply rp); try reflexivity.
  apply getitem_run.
Qed.

Lemma sleep_run seconds w : sleep seconds w = (Returned tt, extended w [Sleep seconds]).
Proof. reflexivity. Qed.










Lemma with_item {B} v key (k : json -> M B) w :
  (x <- getitem v key ;; k x) w
  = match item v key with
    | Returned a => k a w
    | Raised e => (Raised e, w)
    | Diverged => (Diverged, w)
    end.
Proof. apply bind_run, getitem_run. Qed.








(** ** The status poller *)

Lemma eq_literal_iff v lit : eq_literal v lit = true <-> v = JStr (u lit).
Proof.
  unfold eq_literal; destruct v; try (split; [discriminate|intros [=]]).
  rewrite str_eqb_eq; split; [now intros ->|now intros [= ->]].
Qed.

Lemma terminal_states_iff st :
  in_literals st terminal_states = true
  <-> st = JStr (u "Completed") \/ st = JStr (u "Failed")
      \/ st = JStr (u "Not Processed").
Proof.
  unfold in_literals, terminal_states; cbn [existsb].
  rewrite orb_false_r, !orb_true_iff, !eq_literal_iff.
  reflexivity.
Qed.

Lemma poll_loop_stops py_repr fuel self batch wait st w :
  in_literals st terminal_states = true ->
  poll_loop py_repr fuel self batch wait st w = (Returned st, w).
Proof. intros H; destruct fuel; cbn [poll_loop]; now rewrite H. Qed.

Lemma poll_loop_continues py_repr fuel self batch wait st w :
  in_literals st terminal_states = false ->
  poll_loop py_repr (S fuel) self batch wait st w
  = (sleep wait ;;
     batch_status <- batch_state py_repr self batch ;;
     poll_loop py_repr fuel self batch wait batch_status) w.
Proof. intros H; cbn [poll_loop]; now rewrite H. Qed.

Lemma not_processed_poll py_repr fuel :
  forall w,
    fst (poll_loop py_repr fuel not_processed_org
           (JDict [(u "id", JStr (u "751")); (u "jobId", JStr (u "750"));
                   (u "state", JStr (u "NotProcessed"))])
           5 (JStr (u "NotProcessed")) w) = Diverged.
Proof.
  induction fuel as [|fuel IH]; intros w; [reflexivity|].
  rewrite poll_loop_continues by reflexivity.
  rewrite (bind_run _ _ _ _ _ (sleep_run 5 w)).
  erewrite bind_run by (apply batch_state_run; reflexivity).
  apply IH.
Qed.

(** C2, at the state where the code departs from it.  The loop stops on
    exactly the states [Completed], [Failed] and [Not Processed], this last
    one written with a blank.  On the state [NotProcessed] it does not
    stop: it sleeps and reads the state again, and with a batch that stays
    in that state an operation is still polling whatever the fuel, the
    results never requested. *)
Theorem poll_loop_sleeps_on_NotProcessed py_repr self batch wait :
  (forall st, in_literals st terminal_states = true
              <-> st = JStr (u "Completed") \/ st = JStr (u "Failed")
                  \/ st = JStr (u "Not Processed"))
  /\ (forall fuel w,
        poll_loop py_repr (S fuel) self batch wait (JStr (u "NotProcessed")) w
        = (sleep wait ;;
           batch_status <- batch_state py_repr self batch ;;
           poll_loop py_repr fuel self batch wait batch_status) w)
  /\ (forall fuel w,
        poll_loop py_repr fuel self batch wait (JStr (u "Not Processed")) w
        = (Returned (JStr (u "Not Processed")), w))
  /\ (forall fuel data,
        fst (insert py_repr fuel not_processed_org data start) = Diverged).
Proof.
  split; [exact terminal_states_iff|].
  split; [intros; now apply poll_loop_continues|].
  split; [intros; now apply poll_loop_stops|].
  intros fuel data; unfold insert, _bulk_operation.
  rewrite (bind_run _ _ _ _ _ (create_job_run _ _ _ _ _)).
  match goal with
  | |- context [decoded_reply ?rp] =>
      change (decoded_reply rp)
        with (Returned (JDict [(u "id", JStr (u "751")); (u "jobId", JStr (u "750"));
                               (u "state", JStr (u "NotProcessed"))]))
  end.
  cbv iota.
  erewrite bind_run by (rewrite with_item; cbn [item dict_get]; apply add_batch_run).
  match goal with
  | |- context [decoded_reply ?rp] =>
      change (decoded_reply rp)
        with (Returned (JDict [(u "id", JStr (u "751")); (u "jobId", JStr (u "750"));
                               (u "state", JStr (u "NotProcessed"))]))
  end.
  cbv iota.
  erewrite bind_run by (rewrite with_item; cbn [item dict_get]; apply close_job_run).
  match goal with
  | |- context [decoded_reply ?rp] =>
      change (decoded_reply rp)
        with (Returned (JDict [(u "id", JStr (u "751")); (u "jobId", JStr (u "750"));
                               (u "state", JStr (u "NotProcessed"))]))
  end.
  cbv iota.
  erewrite bind_run by (apply batch_state_run; reflexivity).
  match goal with
  | |- context [state_read ?rp] =>
      change (state_read rp) with (Returned (JStr (u "NotProcessed")))
  end.
  cbv iota.
  apply bind_diverges, not_processed_poll.
Qed.

(** ** Runs on scripted sessions *)


(** A query follows the first of its two result sets and no other. *)
Example query_run :
  query json_dumps 3 query_org (JStr (u "SELECT Id FROM Lead")) start
  = (Returned (JList [ JDict [(u "Id", JStr (u "00Q1"))];
                       JDict [(u "Id", JStr (u "00Q2"))] ]),
     extended start
       (let hs := headers start in
        [ Call (create_request query_org (u "Lead") (u "query") JNull hs)
            (Responded (nth 0 query_script (ok "")));
          Call (mkRequest (u "POST") (example_url ++ u "job/750/batch") hs
                  (Some (JStr (u "SELECT Id FROM Lead"))))
            (Responded (nth 1 query_script (ok "")));
          Call (close_request json_dumps query_org hs (JStr (u "750")))
            (Responded (nth 2 query_script (ok "")));
          Call (status_request json_dumps query_org hs (JStr (u "750")) (JStr (u "751")))
            (Responded (nth 3 query_script (ok "")));
          Call (mkRequest (u "GET") (example_url ++ u "job/750/batch/751/result") hs None)
            (Responded (nth 4 query_script (ok "")));
          Call (mkRequest (u "GET") (example_url ++ u "job/750/batch/751/result/752")
                  hs None)
            (Responded (nth 5 query_script (ok ""))) ])).
Proof. vm_compute; reflexivity. Qed.

(** ** The properties at concrete inputs *)


(** A response with status 200 is returned as a value. *)
Lemma call_salesforce_returns_below_300_witness :
  _call_salesforce (example_url ++ u "job") (u "GET") (constant (ok "{}")) None None start
  = (Returned (ok "{}"),
     extended start
       [Call (mkRequest (u "GET") (example_url ++ u "job") (headers start) None)
          (Responded (ok "{}"))]).
Proof.
  apply (proj1 (call_salesforce_returns_below_300
                  (example_url ++ u "job") (u "GET") (constant (ok "{}")) None None
                  start (ok "{}") eq_refl)).
  reflexivity.
Defined.

(** The payload of an upsert on [Email]. *)
Lemma create_job_external_id_field_witness :
  create_job_payload (u "upsert") (u "Lead") (JStr (u "Email"))
  = [ (u "operation", JStr (u "upsert"));
      (u "object", JStr (u "Lead"));
      (u "contentType", JStr (u "JSON"));
      (u "externalIdFieldName", JStr (u "Email")) ].
Proof.
  apply (proj1 (proj2 (proj2 (create_job_external_id_field
                                insert_org (u "upsert") (u "Lead") (JStr (u "Email"))
                                start)))).
  reflexivity.
Defined.


(** Of the result sets 752 and 753 only the first is fetched. *)
Lemma query_results_follow_first_identifier_witness :
  let hs := headers start in
  let rq := mkRequest (u "GET") (example_url ++ u "job/750/batch/751/result") hs None in
  let rq2 := mkRequest (u "GET") (example_url ++ u "job/750/batch/751/result/752")
               hs None in
  _get_batch_results json_dumps 0 result_sets_org (JStr (u "750")) (JStr (u "751"))
    (u "query") start
  = (Returned (JList [ JDict [(u "Id", JStr (u "00Q1"))];
                       JDict [(u "Id", JStr (u "00Q2"))] ]),
     extended start [ Call rq (Responded (ok "['752','753']"));
                      Call rq2 (Responded (ok "[{'Id':'00Q1'},{'Id':'00Q2'}]")) ]).
Proof.
  exact (proj1 (query_results_follow_first_identifier
                  json_dumps 0 result_sets_org (JStr (u "750")) (JStr (u "751")) start
                  (ok "['752','753']") [JStr (u "752"); JStr (u "753")]
                  eq_refl eq_refl eq_refl)).
Defined.

(** A result text cut short keeps the retrieval printing the same error. *)
Lemma get_batch_results_swallows_other_errors_witness :
  let rq := mkRequest (u "GET") (example_url ++ u "job/750/batch/751/result")
              (headers start) None in
  let line := u "Expecting value: line 1 column 23 (char 22)" in
  _get_batch_results json_dumps 3 truncated_org (JStr (u "750")) (JStr (u "751"))
    (u "insert") start
  = (Diverged,
     extended start [ Call rq (Responded (ok "[{'success':true,'id':"));
                      Printed line; Printed line; Printed line ]).
Proof.
  refine (get_batch_results_swallows_other_errors
            json_dumps truncated_org (JStr (u "750")) (JStr (u "751")) (u "insert") start
            (ok "[{'success':true,'id':")
            (mkJSONDecodeError (u "Expecting value") 1 23 22)
            _ eq_refl eq_refl eq_refl eq_refl 3).
  intros H; discriminate H.
Defined.

(** One turn of the loop on a text that lacks a comma. *)
Lemma repair_loop_inserts_commas_witness :
  repair_loop 2 (dq "[1 2]") start
  = repair_loop 1 (dq "[1 ,2]")
      (extended start [Printed (u "Expecting ',' delimiter: line 1 column 4 (char 3)")]).
Proof.
  exact (proj1 (proj2 repair_loop_inserts_commas) 1 (dq "[1 2]")
           (mkJSONDecodeError (u "Expecting ',' delimiter") 1 4 3) start
           eq_refl eq_refl).
Defined.

(** * Further properties of [bulk.py] *)

(** ** Additional headers *)

Lemma dict_get_set_same {V} (d : dict V) k v : dict_get (dict_set d k v) k = Some v.
Proof.
  induction d as [|[k' v'] d IH]; cbn [dict_set dict_get].
  - now rewrite str_eqb_refl.
  - destruct (str_eqb k' k) eqn:E; cbn [dict_get]; rewrite E; [reflexivity|exact IH].
Qed.

Lemma dict_get_set_other {V} (d : dict V) k v k' :
  k <> k' -> dict_get (dict_set d k v) k' = dict_get d k'.
Proof.
  intros Hne; induction d as [|[k0 v0] d IH]; cbn [dict_set dict_get].
  - apply str_eqb_neq in Hne; now rewrite Hne.
  - destruct (str_eqb k0 k) eqn:E; cbn [dict_get].
    + apply str_eqb_eq in E; subst k0.
      apply str_eqb_neq in Hne; now rewrite Hne.
    + now rewrite IH.
Qed.

Lemma dict_get_absent {V} (e : dict V) k :
  ~ In k (map fst e) -> dict_get e k = None.
Proof.
  induction e as [|[k' v'] e IH]; intros Hin; [reflexivity|].
  cbn [dict_get map fst In] in *.
  destruct (str_eqb k' k) eqn:E; [apply str_eqb_eq in E; tauto|apply IH; tauto].
Qed.

(** [d.update(e)] read key by key, for an [e] without repeated keys. *)
Lemma dict_get_update {V} (e : dict V) :
  NoDup (map fst e) ->
  forall d k,
    dict_get (dict_update d e) k
    = match dict_get e k with
      | Some v => Some v
      | None => dict_get d k
      end.
Proof.
  unfold dict_update; induction e as [|[k0 v0] e IH]; intros Hnodup d k;
    [reflexivity|].
  cbn [map fst] in Hnodup; inversion Hnodup as [|? ? Hnotin Hrest]; subst.
  cbn [fold_left fst snd dict_get]; rewrite (IH Hrest).
  destruct (str_eqb k0 k) eqn:E.
  - apply str_eqb_eq in E; subst k0.
    rewrite (dict_get_absent e k Hnotin). apply dict_get_set_same.
  - apply str_eqb_neq in E.
    destruct (dict_get e k); [reflexivity|now apply dict_get_set_other].
Qed.

(** X1. Additional headers are not scoped to the call that supplies them.
    After a call with additional headers, however that call ends, the
    shared mapping holds each additional header and still holds every
    header that was not overridden; the request of that call was sent with
    the merged mapping, and so is the request of a later call that supplies
    no additional headers. *)
Theorem additional_headers_persist
    url1 method1 session1 extra data1 url2 method2 session2 data2 w :
  NoDup (map fst extra) ->
  let merged := dict_update (headers w) extra in
  let w1 := snd (_call_salesforce url1 method1 session1 (Some extra) data1 w) in
  headers w1 = merged
  /\ (forall k, dict_get merged k
                = match dict_get extra k with
                  | Some v => Some v
                  | None => dict_get (headers w) k
                  end)
  /\ (exists rp, log w1 = log w ++ [Call (mkRequest method1 url1 merged data1) rp])
  /\ (exists rp,
        snd (_call_salesforce url2 method2 session2 None data2 w1)
        = mkWorld merged (log w1 ++ [Call (mkRequest method2 url2 merged data2) rp])).
Proof.
  intros Hnodup merged w1.
  assert (Hw1 : exists rp,
             w1 = mkWorld merged (log w ++ [Call (mkRequest method1 url1 merged data1) rp])).
  { subst w1; rewrite call_salesforce_run; cbn [extra_headers]; fold merged.
    destruct (session1 _ _) as [result|] eqn:E; [|eexists; reflexivity].
    destruct (300 <=? status_code result)%Z; eexists; reflexivity. }
  destruct Hw1 as [rp Hw1].
  split; [now rewrite Hw1|].
  split; [intros k; apply dict_get_update; exact Hnodup|].
  split; [exists rp; now rewrite Hw1|].
  rewrite call_salesforce_plain, Hw1; cbn [snd called headers log].
  eexists; reflexivity.
Qed.

(** ** The handler *)

(** X2. Every request of a public operation on a type handle of a handler
    is sent with the three headers that the handler was built with, the
    session id among them, whatever the session answers and however the
    operation ends. *)
Theorem handler_requests_carry_session_id
    py_repr fuel session_id bulk_url_ session_ name data external_id_field w0 :
  let handler := fst (SFBulkHandler_init session_id bulk_url_ session_ w0) in
  let w := snd (SFBulkHandler_init session_id bulk_url_ session_ w0) in
  let handle := SFBulkHandler_getattr handler name in
  let authenticated (run : M json) :=
    exists evs,
      log (snd (run w)) = log w0 ++ evs
      /\ Forall (carries (bulk_headers session_id)) evs in
  dict_get (bulk_headers session_id) (u "X-SFDC-Session") = Some session_id
  /\ authenticated (insert py_repr fuel handle data)
  /\ authenticated (update py_repr fuel handle data)
  /\ authenticated (upsert py_repr fuel handle data external_id_field)
  /\ authenticated (delete py_repr fuel handle data)
  /\ authenticated (hard_delete py_repr fuel handle data)
  /\ authenticated (query py_repr fuel handle data).
Proof.
  cbv zeta; split; [reflexivity|].
  repeat apply conj;
    match goal with
    | |- exists evs, log (snd (?run ?w)) = _ /\ _ =>
        destruct (keeps_bulk_operation py_repr fuel
                    (SFBulkHandler_getattr
                       (fst (SFBulkHandler_init session_id bulk_url_ session_ w0)) name)
                    name
                    ltac:(match run with
                          | insert _ _ _ _ => exact (u "insert")
                          | update _ _ _ _ => exact (u "update")
                          | upsert _ _ _ _ _ => exact (u "upsert")
                          | delete _ _ _ _ => exact (u "delete")
                          | hard_delete _ _ _ _ => exact (u "hardDelete")
                          | query _ _ _ _ => exact (u "query")
                          end)
                    data
                    ltac:(match run with
                          | upsert _ _ _ _ _ => exact external_id_field
                          | _ => exact JNull
                          end)
                    5%N w) as [_ Hevs];
        exact Hevs
    end.
Qed.

(** ** Failures on the way *)

(** X3. When the job-creation call fails, because the transport fails,
    the status is 300 or above or the body is not JSON, the operation
    raises that very error and has issued this one request only: no batch
    is submitted.  For a status of 300 or above the error is the
    classified error of the response. *)
Theorem creation_failure_is_raised
    py_repr fuel self object_name_ operation data external_id_field wait w :
  let rq := create_request self object_name_ operation external_id_field (headers w) in
  let rp := session self (log w) rq in
  (forall e,
     decoded_reply rp = Raised e ->
     _bulk_operation py_repr fuel self object_name_ operation data external_id_field
       wait w = (Raised e, extended w [Call rq rp]))
  /\ (forall result,
        rp = Responded result -> (300 <= status_code result)%Z ->
        decoded_reply rp = Raised (classified result))
  /\ (rp = RequestFailed -> decoded_reply rp = Raised ERequestException).
Proof.
  intros rq rp; split; [|split].
  - intros e He; unfold _bulk_operation.
    rewrite (bind_run _ _ _ _ _ (create_job_run _ _ _ _ _)).
    fold (create_request self object_name_ operation external_id_field (headers w)).
    fold rq; fold rp; rewrite He; reflexivity.
  - intros result -> Hstatus; cbn [decoded_reply].
    apply Z.leb_le in Hstatus; now rewrite Hstatus.
  - intros ->; reflexivity.
Qed.

(** X4. When the answer to the job creation is JSON without an [id], the
    operation raises [KeyError('id')] (or [TypeError] when the answer is
    not an object) before it submits anything: the job, if the remote
    created one, is neither used nor closed. *)
Theorem creation_without_id_is_raised
    py_repr fuel self object_name_ operation data external_id_field wait w job :
  let rq := create_request self object_name_ operation external_id_field (headers w) in
  let rp := session self (log w) rq in
  decoded_reply rp = Returned job ->
  (forall job_id, item job "id" <> Returned job_id) ->
  exists e,
    _bulk_operation py_repr fuel self object_name_ operation data external_id_field
      wait w = (Raised e, extended w [Call rq rp])
    /\ e = match job with
           | JDict _ => EKeyError (JStr (u "id"))
           | _ => ETypeError
           end.
Proof.
  intros rq rp Hjob Hid; unfold _bulk_operation.
  rewrite (bind_run _ _ _ _ _ (create_job_run _ _ _ _ _)).
  fold (create_request self object_name_ operation external_id_field (headers w)).
  fold rq; fold rp; rewrite Hjob.
  assert (Hitem : item job "id" = Raised match job with
                                         | JDict _ => EKeyError (JStr (u "id"))
                                         | _ => ETypeError
                                         end).
  { unfold item in *; destruct job; try reflexivity.
    destruct (dict_get d (u "id")) as [x|]; [|reflexivity].
    now destruct (Hid x). }
  eexists; split; [|reflexivity].
  erewrite bind_run by (rewrite with_item, Hitem; reflexivity).
  reflexivity.
Qed.

(** X5. When the batch submission fails, the operation raises that error
    after the creation and the submission requests and issues nothing
    more: the job that was created is left open, no close request is
    sent. *)
Theorem submission_failure_leaves_job_open
    py_repr fuel self object_name_ operation data external_id_field wait w
    job job_id e :
  let rq1 := create_request self object_name_ operation external_id_field (headers w) in
  let rp1 := session self (log w) rq1 in
  let rq2 := submit_request py_repr self operation data (headers w) job_id in
  let rp2 := session self (log w ++ [Call rq1 rp1]) rq2 in
  decoded_reply rp1 = Returned job ->
  item job "id" = Returned job_id ->
  decoded_reply rp2 = Raised e ->
  _bulk_operation py_repr fuel self object_name_ operation data external_id_field
    wait w = (Raised e, extended w [Call rq1 rp1; Call rq2 rp2])
  /\ posts [Call rq1 rp1; Call rq2 rp2] = [rq1; rq2].
Proof.
  intros rq1 rp1 rq2 rp2 Hjob Hid Hfail; split; [|reflexivity].
  unfold _bulk_operation.
  rewrite (bind_run _ _ _ _ _ (create_job_run _ _ _ _ _)).
  fold (create_request self object_name_ operation external_id_field (headers w)).
  fold rq1; fold rp1; rewrite Hjob.
  erewrite bind_run by (rewrite with_item, Hid; apply add_batch_run).
  cbn [called headers log].
  fold (submit_request py_repr self operation data (headers w) job_id).
  fold rq2; fold rp2; rewrite Hfail.
  unfold called, extended; cbn [headers log]; now rewrite <- app_assoc.
Qed.

(** ** The repair loop, whatever the text *)




(** *** The messages of the decoder *)













(** ** Query results that are not a list *)

(** X8. In the result retrieval of a query, a result body that is not a
    list is not rejected as such.  An empty object or an empty string is
    returned as it is; a non-empty object raises [KeyError(0)]; a number, a
    boolean or [null] raises [TypeError]; each after the one request for
    the results. *)
Theorem query_results_of_other_shapes
    py_repr fuel self job_id batch_id w result result_data :
  let rq := mkRequest (u "GET") (result_url py_repr self job_id batch_id)
              (headers w) None in
  let run := _get_batch_results py_repr fuel self job_id batch_id (u "query") w in
  let w1 := extended w [Call rq (Responded result)] in
  session self (log w) rq = Responded result ->
  (status_code result < 300)%Z ->
  json_loads (text result) = Decoded result_data ->
  match result_data with
  | JDict [] | JStr [] => run = (Returned result_data, w1)
  | JDict (_ :: _) => run = (Raised (EKeyError (JInt 0)), w1)
  | JNull | JBool _ | JInt _ | JFloat _ => run = (Raised ETypeError, w1)
  | JStr (_ :: _) | JList _ => True
  end.
Proof.
  intros rq run w1 Hreply Hstatus Hjson.
  assert (Hfirst : _call_salesforce (result_url py_repr self job_id batch_id) (u "GET")
                     (session self) None None w = (Returned result, w1)).
  { rewrite call_salesforce_plain; fold rq; rewrite Hreply.
    now rewrite (status_below_300 _ Hstatus). }
  subst run; unfold _get_batch_results;
    fold (result_url py_repr self job_id batch_id).
  rewrite (bind_returned _ _ _ _ _ Hfirst).
  change (str_eqb (u "query") (u "query")) with true; cbv iota.
  unfold response_json; rewrite Hjson.
  destruct result_data as [|b|z|lexeme|[|c s]|l|[|kv d]]; try exact I; reflexivity.
Qed.

(** ** Messages *)

(** X9. The message of the error that the call wrapper raises for a
    status of 404 names no resource and no URL: the wrapper passes no
    resource name, so the message is "Resource  Not Found. Response
    content: " followed by the body.  A status of 300 or above outside the
    table raises the general error, whose message starts with "Error
    Code ", the status in decimal and a full stop. *)
Theorem error_messages_of_the_call_wrapper
    py_repr url_ method session_ data w result :
  let rq := mkRequest method url_ (headers w) data in
  session_ (log w) rq = Responded result ->
  (300 <= status_code result)%Z ->
  exists e,
    fst (_call_salesforce url_ method session_ None data w) = Raised (ESalesforce e)
    /\ (status_code result = 404%Z ->
        err_class e = SalesforceResourceNotFound
        /\ SalesforceResourceNotFound_str py_repr e
           = u "Resource  Not Found. Response content: "
             ++ py_format py_repr (captured_body result))
    /\ (~ In (status_code result) [300; 400; 401; 403; 404]%Z ->
        err_class e = SalesforceGeneralError
        /\ SalesforceGeneralError_str py_repr e
           = u "Error Code " ++ dec_Z (status_code result)
             ++ u ". Response content: " ++ py_format py_repr (captured_body result)).
Proof.
  intros rq Hreply Hstatus.
  rewrite call_salesforce_plain; fold rq; rewrite Hreply.
  apply Z.leb_le in Hstatus; rewrite Hstatus; cbn [fst classified].
  eexists; split; [reflexivity|]. split.
  - intros H404; unfold SalesforceResourceNotFound_str;
      cbn [err_class err_resource_name err_content].
    rewrite H404; split; reflexivity.
  - intros Hother; unfold SalesforceGeneralError_str;
      cbn [err_class err_status err_content]; split; [|reflexivity].
    unfold taxonomy; cbn [In] in Hother.
    repeat match goal with
           | |- context [(status_code result =? ?c)%Z] =>
               destruct (Z.eqb_spec (status_code result) c);
               [exfalso; intuition congruence|]
           end.
    reflexivity.
Qed.

(** ** A batch that has finished by the first read *)

(** X10. When the first status read already gives one of the states on
    which the loop stops, [Failed] as much as [Completed], the operation
    does not sleep at all and goes on to the result retrieval: what it
    returns or raises is what the retrieval returns or raises.  A failed
    batch is not turned into an error. *)
Theorem finished_batch_is_retrieved_at_once
    py_repr fuel self object_name_ operation data external_id_field wait w
    job job_id batch closed_job batch_job batch_id st :
  let hs := headers w in
  let rq1 := create_request self object_name_ operation external_id_field hs in
  let rp1 := session self (log w) rq1 in
  let rq2 := submit_request py_repr self operation data hs job_id in
  let rp2 := session self (log w ++ [Call rq1 rp1]) rq2 in
  let rq3 := close_request py_repr self hs job_id in
  let rp3 := session self (log w ++ [Call rq1 rp1; Call rq2 rp2]) rq3 in
  let rq4 := status_request py_repr self hs batch_job batch_id in
  let rp4 := session self (log w ++ [Call rq1 rp1; Call rq2 rp2; Call rq3 rp3]) rq4 in
  decoded_reply rp1 = Returned job ->
  item job "id" = Returned job_id ->
  decoded_reply rp2 = Returned batch ->
  decoded_reply rp3 = Returned closed_job ->
  item batch "jobId" = Returned batch_job ->
  item batch "id" = Returned batch_id ->
  state_read rp4 = Returned st ->
  in_literals st terminal_states = true ->
  _bulk_operation py_repr fuel self object_name_ operation data external_id_field
    wait w
  = _get_batch_results py_repr fuel self batch_job batch_id operation
      (extended w [Call rq1 rp1; Call rq2 rp2; Call rq3 rp3; Call rq4 rp4]).
Proof.
  intros hs rq1 rp1 rq2 rp2 rq3 rp3 rq4 rp4 Hjob Hid Hbatch Hclosed Hbjob Hbid Hread Hterm.
  unfold _bulk_operation.
  rewrite (bind_run _ _ _ _ _ (create_job_run _ _ _ _ _)).
  fold (create_request self object_name_ operation external_id_field (headers w)).
  fold hs; fold rq1; fold rp1; rewrite Hjob.
  erewrite bind_run by (rewrite with_item, Hid; apply add_batch_run).
  cbn [called headers log].
  fold (submit_request py_repr self operation data (headers w) job_id).
  fold hs; fold rq2; fold rp2; rewrite Hbatch.
  erewrite bind_run by (rewrite with_item, Hid; apply close_job_run).
  cbn [called headers log]; rewrite <- !app_assoc; cbn [app].
  fold hs; fold rq3; fold rp3; rewrite Hclosed.
  erewrite bind_run by (apply (batch_state_run py_repr self batch batch_job batch_id);
                        assumption).
  cbn [called headers log]; rewrite <- !app_assoc; cbn [app].
  fold hs; fold rq4; fold rp4; rewrite Hread.
  erewrite bind_run by (apply poll_loop_stops; exact Hterm).
  rewrite with_item, Hbjob, with_item, Hbid.
  unfold called, extended; cbn [headers log]; rewrite <- !app_assoc; reflexivity.
Qed.

(** * Properties of [login.py] *)

(** ** [str.replace] and [str.split] *)

Lemma strip_prefix_some p s r : strip_prefix p s = Some r -> s = p ++ r.
Proof.
  revert s; induction p as [|x p IH]; intros s; cbn [strip_prefix].
  - intros [= <-]; reflexivity.
  - destruct s as [|y s]; [discriminate|].
    destruct (N.eqb_spec x y); [|discriminate].
    intros H; apply IH in H; subst; reflexivity.
Qed.

Lemma replace_from_in old new c :
  forall s skip, In c (Login.replace_from old new s skip) -> In c new \/ In c s.
Proof.
  induction s as [|x s IH]; intros skip; cbn [Login.replace_from]; [tauto|].
  destruct skip as [|k].
  - destruct (strip_prefix old (x :: s)).
    + intros H; apply in_app_or in H as [H|H]; [tauto|].
      apply IH in H; cbn [In]; tauto.
    + cbn [In]; intros [H|H]; [tauto|]. apply IH in H; tauto.
  - intros H; apply IH in H; cbn [In]; tauto.
Qed.

Lemma replace_from_length old :
  forall s skip, length (Login.replace_from old [] s skip) <= length s.
Proof.
  induction s as [|x s IH]; intros skip; cbn [Login.replace_from length]; [lia|].
  destruct skip as [|k]; [destruct (strip_prefix old (x :: s))|];
    cbn [app length]; match goal with |- context [Login.replace_from old [] s ?k] =>
                                       specialize (IH k) end; lia.
Qed.

Lemma replace_deletes s h old c :
  In c (Login.replace s (h :: old) []) -> In c s.
Proof.
  unfold Login.replace; intros H; apply replace_from_in in H as [[]|H]; exact H.
Qed.

Lemma replace_shortens s h old : length (Login.replace s (h :: old) []) <= length s.
Proof. unfold Login.replace; apply replace_from_length. Qed.

Lemma split_first_in s sep c : In c (Login.split_first s sep) -> In c s /\ c <> sep.
Proof.
  induction s as [|x s IH]; cbn [Login.split_first]; [tauto|].
  destruct (N.eqb_spec x sep); [contradiction|].
  cbn [In]; intros [<-|H]; [tauto|]. apply IH in H; tauto.
Qed.

Lemma split_first_length s sep : length (Login.split_first s sep) <= length s.
Proof.
  induction s as [|x s IH]; cbn [Login.split_first length]; [lia|].
  destruct (x =? sep)%N; cbn [length]; lia.
Qed.

Lemma cleanseInstanceUrl_no_slash instance_url :
  ~ In (ch "/") (Login.cleanseInstanceUrl instance_url).
Proof.
  unfold Login.cleanseInstanceUrl.
  change (u "-api") with (45 :: u "api")%N.
  intros H; apply replace_deletes, split_first_in in H; tauto.
Qed.

(** X11. The cleansed instance URL contains no slash; its characters are
    characters of the given URL, and it is never longer than the given
    URL. *)
Theorem cleansed_url_has_no_slash instance_url :
  ~ In (ch "/") (Login.cleanseInstanceUrl instance_url)
  /\ (forall c, In c (Login.cleanseInstanceUrl instance_url) -> In c instance_url)
  /\ length (Login.cleanseInstanceUrl instance_url) <= length instance_url.
Proof.
  unfold Login.cleanseInstanceUrl.
  change (u "-api") with (45 :: u "api")%N.
  change (u "http://") with (104 :: u "ttp://")%N.
  change (u "https://") with (104 :: u "ttps://")%N.
  split; [|split].
  - apply cleanseInstanceUrl_no_slash.
  - intros c H.
    apply replace_deletes, split_first_in in H as [H _].
    now apply replace_deletes, replace_deletes in H.
  - eapply Nat.le_trans; [apply replace_shortens|].
    eapply Nat.le_trans; [apply split_first_length|].
    eapply Nat.le_trans; [apply replace_shortens|apply replace_shortens].
Qed.

Lemma strip_prefix_absent old s c :
  In c old -> ~ In c s -> strip_prefix old s = None.
Proof.
  intros Hold Hs.
  destruct (strip_prefix old s) as [r|] eqn:E; [|reflexivity].
  apply strip_prefix_some in E; subst s.
  exfalso; apply Hs, in_or_app; tauto.
Qed.

Lemma replace_from_absent old new c :
  In c old -> forall s, ~ In c s -> Login.replace_from old new s 0 = s.
Proof.
  intros Hold; induction s as [|x s IH]; intros Hs; cbn [Login.replace_from];
    [reflexivity|].
  rewrite (strip_prefix_absent old (x :: s) c Hold Hs).
  rewrite IH; [reflexivity|]. cbn [In] in Hs; tauto.
Qed.

Lemma replace_absent s h old new c :
  In c (h :: old) -> ~ In c s -> Login.replace s (h :: old) new = s.
Proof. intros; unfold Login.replace; eapply replace_from_absent; eauto. Qed.

Lemma replace_from_passes h old new a rest :
  ~ In h a ->
  Login.replace_from (h :: old) new (a ++ rest) 0
  = a ++ Login.replace_from (h :: old) new rest 0.
Proof.
  induction a as [|x a IH]; intros Ha; [reflexivity|].
  cbn [app Login.replace_from strip_prefix].
  cbn [In] in Ha.
  destruct (N.eqb_spec h x); [exfalso; intuition congruence|].
  rewrite IH by tauto; reflexivity.
Qed.

Lemma split_first_app host path sep :
  ~ In sep host -> Login.split_first (host ++ sep :: path) sep = host.
Proof.
  induction host as [|x host IH]; cbn [app Login.split_first In]; intros H.
  - now rewrite N.eqb_refl.
  - destruct (N.eqb_spec x sep); [tauto|]. rewrite IH by tauto; reflexivity.
Qed.

Lemma split_first_absent host sep :
  ~ In sep host -> Login.split_first host sep = host.
Proof.
  induction host as [|x host IH]; cbn [Login.split_first In]; intros H;
    [reflexivity|].
  destruct (N.eqb_spec x sep); [tauto|]. rewrite IH by tauto; reflexivity.
Qed.

(** X12. For a host name without slash or colon, the URL forms
    [https://host/path], [http://host/path], [host/path] and [host] are all
    cleansed to the host name with its occurrences of [-api] removed; a
    host name of the form [a-apib], with no other hyphen, is cleansed to
    [ab], and one without hyphen is unchanged. *)
Theorem cleansed_url_is_the_host host path :
  ~ In (ch ":") (host ++ path) -> ~ In (ch "/") host ->
  let cleaned := Login.replace host (u "-api") [] in
  Login.cleanseInstanceUrl (u "https://" ++ host ++ u "/" ++ path) = cleaned
  /\ Login.cleanseInstanceUrl (u "http://" ++ host ++ u "/" ++ path) = cleaned
  /\ Login.cleanseInstanceUrl (host ++ u "/" ++ path) = cleaned
  /\ Login.cleanseInstanceUrl host = cleaned
  /\ (~ In (ch "-") host -> cleaned = host)
  /\ (forall a b, host = a ++ u "-api" ++ b ->
        ~ In (ch "-") a -> ~ In (ch "-") b -> cleaned = a ++ b).
Proof.
  intros Hcolon Hslash cleaned.
  assert (Hrest : ~ In (ch ":") (host ++ u "/" ++ path)).
  { intros H; apply in_app_or in H as [H|H];
      [apply Hcolon, in_or_app; tauto|].
    cbn in H; destruct H as [H|H]; [discriminate|].
    apply Hcolon, in_or_app; tauto. }
  assert (Hhost : ~ In (ch ":") host).
  { intros H; apply Hcolon, in_or_app; tauto. }
  assert (Hhttp : forall s, ~ In (ch ":") s ->
            Login.replace s (u "http://") [] = s).
  { intros s Hs; apply (replace_absent _ _ _ _ (ch ":")); [|exact Hs].
    cbn; tauto. }
  assert (Hhttps : forall s, ~ In (ch ":") s ->
            Login.replace s (u "https://") [] = s).
  { intros s Hs; apply (replace_absent _ _ _ _ (ch ":")); [|exact Hs].
    cbn; tauto. }
  assert (Hsecure : forall s, ~ In (ch ":") s ->
            Login.replace (Login.replace (u "https://" ++ s) (u "http://") [])
              (u "https://") [] = s).
  { intros s Hs.
    assert (E : Login.replace (u "https://" ++ s) (u "http://") []
                = u "https://" ++ s).
    { unfold Login.replace; cbn.
      now rewrite (replace_from_absent _ _ (ch ":")) by (cbn; tauto). }
    rewrite E. unfold Login.replace; cbn.
    apply (replace_from_absent _ _ (ch ":")); [cbn; tauto|exact Hs]. }
  assert (Hplain : forall s, ~ In (ch ":") s ->
            Login.replace (Login.replace (u "http://" ++ s) (u "http://") [])
              (u "https://") [] = s).
  { intros s Hs.
    assert (E : Login.replace (u "http://" ++ s) (u "http://") [] = s).
    { unfold Login.replace; cbn.
      apply (replace_from_absent _ _ (ch ":")); [cbn; tauto|exact Hs]. }
    rewrite E; apply Hhttps, Hs. }
  unfold Login.cleanseInstanceUrl.
  repeat split.
  - rewrite Hsecure by exact Hrest.
    change (u "/" ++ path) with (ch "/" :: path).
    now rewrite split_first_app.
  - rewrite Hplain by exact Hrest.
    change (u "/" ++ path) with (ch "/" :: path).
    now rewrite split_first_app.
  - rewrite Hhttp, Hhttps by exact Hrest.
    change (u "/" ++ path) with (ch "/" :: path).
    now rewrite split_first_app.
  - rewrite Hhttp, Hhttps by exact Hhost.
    now rewrite split_first_absent.
  - intros H; apply (replace_absent _ _ _ _ (ch "-")); [cbn; tauto|exact H].
  - intros a b -> Ha Hb. unfold cleaned, Login.replace.
    change (u "-api") with (ch "-" :: u "api").
    rewrite replace_from_passes by exact Ha.
    cbn. f_equal.
    apply (replace_from_absent _ _ (ch "-")); [cbn; tauto|exact Hb].
Qed.

(** ** [html.escape] *)

Lemma replace_character s c new :
  Login.replace s [c] new
  = flat_map (fun x => if (x =? c)%N then new else [x]) s.
Proof.
  unfold Login.replace.
  induction s as [|x s IH]; [reflexivity|].
  cbn [Login.replace_from strip_prefix flat_map length Nat.sub].
  rewrite (N.eqb_sym c x).
  destruct (x =? c)%N; rewrite IH; reflexivity.
Qed.

Lemma flat_map_twice (f g : N -> str) s :
  flat_map g (flat_map f s) = flat_map (fun x => flat_map g (f x)) s.
Proof.
  induction s as [|x s IH]; [reflexivity|].
  cbn [flat_map]. now rewrite flat_map_app, IH.
Qed.

Lemma escape_is_one_pass s : Login.escape s = flat_map escape_character s.
Proof.
  unfold Login.escape.
  change (u "&") with [38%N]; change (u "<") with [60%N];
    change (u ">") with [62%N]; change (u "'") with [39%N].
  rewrite !replace_character, !flat_map_twice.
  apply flat_map_ext; intros c.
  unfold escape_character.
  destruct (N.eqb_spec c 38) as [->|H38]; [reflexivity|].
  destruct (N.eqb_spec c 60) as [->|H60]; [reflexivity|].
  destruct (N.eqb_spec c 62) as [->|H62]; [reflexivity|].
  destruct (N.eqb_spec c 34) as [->|H34]; [reflexivity|].
  destruct (N.eqb_spec c 39) as [->|H39]; [reflexivity|].
  cbn [flat_map app].
  repeat match goal with
         | |- context [(c =? ?k)%N] =>
             destruct (N.eqb_spec c k); [congruence|]; cbn [flat_map app]
         end.
  reflexivity.
Qed.

Lemma escape_character_cases c :
  (c = 38%N /\ escape_character c = u "&amp;")
  \/ (c = 60%N /\ escape_character c = u "&lt;")
  \/ (c = 62%N /\ escape_character c = u "&gt;")
  \/ (c = 34%N /\ escape_character c = u "&quot;")
  \/ (c = 39%N /\ escape_character c = u "&#x27;")
  \/ (c <> 38%N /\ c <> 60%N /\ c <> 62%N /\ c <> 34%N /\ c <> 39%N
      /\ escape_character c = [c]).
Proof.
  unfold escape_character.
  destruct (N.eqb_spec c 38); [tauto|].
  destruct (N.eqb_spec c 60); [tauto|].
  destruct (N.eqb_spec c 62); [tauto|].
  destruct (N.eqb_spec c 34); [tauto|].
  destruct (N.eqb_spec c 39); [tauto|].
  do 5 right; tauto.
Qed.

Lemma escape_character_prefix x y a b :
  escape_character x ++ a = escape_character y ++ b -> x = y /\ a = b.
Proof.
  destruct (escape_character_cases x)
    as [[-> ->]|[[-> ->]|[[-> ->]|[[-> ->]|[[-> ->]|(?&?&?&?&?& ->)]]]]];
  destruct (escape_character_cases y)
    as [[-> ->]|[[-> ->]|[[-> ->]|[[-> ->]|[[-> ->]|(?&?&?&?&?& ->)]]]]];
  cbn; intros E; inversion E; subst; try tauto; try congruence;
    split; congruence.
Qed.

(** X13. [escape] works as one pass over the text: the ampersand, the two
    angle brackets and the two quotes each become their entity, and the
    ampersands of the entities are not escaped again.  Hence the escaped
    text contains none of the four characters [<], [>], double quote and
    single quote, a text without the five characters is unchanged, and no
    two texts are escaped to the same text. *)
Theorem escape_is_a_lossless_single_pass s :
  Login.escape s = flat_map escape_character s
  /\ (forall c, In c (Login.escape s) ->
        c <> ch "<" /\ c <> ch ">" /\ c <> 34%N /\ c <> ch "'")
  /\ ((forall c, In c s ->
         c <> ch "&" /\ c <> ch "<" /\ c <> ch ">" /\ c <> 34%N /\ c <> ch "'") ->
      Login.escape s = s)
  /\ (forall t, Login.escape s = Login.escape t -> s = t).
Proof.
  split; [apply escape_is_one_pass|].
  split; [|split].
  - intros c; rewrite escape_is_one_pass, in_flat_map.
    intros (x & _ & Hc).
    destruct (escape_character_cases x)
      as [[-> E]|[[-> E]|[[-> E]|[[-> E]|[[-> E]|(?&?&?&?&?& E)]]]]];
      rewrite E in Hc; cbn in Hc;
      repeat (destruct Hc as [<-|Hc]; [cbn; repeat split; congruence|]);
      contradiction.
  - rewrite escape_is_one_pass.
    induction s as [|x s IH]; intros H; [reflexivity|].
    cbn [flat_map]. rewrite IH by (intros c Hc; apply H; right; exact Hc).
    destruct (escape_character_cases x)
      as [[-> E]|[[-> E]|[[-> E]|[[-> E]|[[-> E]|(?&?&?&?&?& E)]]]]];
      try (exfalso; specialize (H _ (or_introl eq_refl)); cbn in H;
           intuition congruence).
    now rewrite E.
  - intros t; rewrite !escape_is_one_pass.
    revert t; induction s as [|x s IH]; intros [|y t]; cbn [flat_map].
    + reflexivity.
    + intros E; exfalso.
      destruct (escape_character_cases y)
        as [[_ Ey]|[[_ Ey]|[[_ Ey]|[[_ Ey]|[[_ Ey]|(_&_&_&_&_& Ey)]]]]];
        rewrite Ey in E; discriminate.
    + intros E; exfalso.
      destruct (escape_character_cases x)
        as [[_ Ex]|[[_ Ex]|[[_ Ex]|[[_ Ex]|[[_ Ex]|(_&_&_&_&_& Ex)]]]]];
        rewrite Ex in E; discriminate.
    + intros E; apply escape_character_prefix in E as [-> E].
      f_equal; apply IH, E.
Qed.

(** ** [SalesforceLogin] *)

(** X14. A login sends at most one request.  It sends none exactly when
    the three arguments of the refresh flow are not all given and the user
    name or the password is missing, and then it ends with the
    [AttributeError] of [escape], not with the [INVALID AUTH] failure of
    the last branch.  Otherwise it sends one [POST], to the token address
    or to the SOAP address of [test.salesforce.com] for a sandbox and of
    [login.salesforce.com] otherwise. *)
Theorem login_sends_at_most_one_request
    (getUniqueElementValueFromXmlString : str -> string -> Login.result json)
    (post : request -> reply)
    username password security_token refresh_token consumer_id consumer_secret
    organizationId sandbox sf_version client_id :
  let a := Login.SalesforceLogin getUniqueElementValueFromXmlString post
             username password security_token refresh_token consumer_id
             consumer_secret organizationId sandbox sf_version client_id in
  let services := u "https://" ++ (if sandbox then u "test" else u "login")
                  ++ u ".salesforce.com/services/" in
  let refreshing := refresh_token <> None /\ consumer_id <> None
                    /\ consumer_secret <> None in
  let named := username <> None /\ password <> None in
  (~ refreshing /\ ~ named ->
   a = Login.mkAttempt [] (Login.Raise Login.AttributeError))
  /\ (refreshing ->
      exists rq, Login.sent a = [rq] /\ req_method rq = u "POST"
                 /\ req_url rq = services ++ u "oauth2/token")
  /\ (~ refreshing /\ named ->
      exists rq, Login.sent a = [rq] /\ req_method rq = u "POST"
                 /\ req_url rq = services ++ u "Soap/u/" ++ sf_version).
Proof.
  cbv zeta; unfold Login.SalesforceLogin.
  split; [|split].
  - intros [Hr Hn].
    destruct refresh_token, consumer_id, consumer_secret;
      try (exfalso; apply Hr; repeat split; discriminate);
      destruct username, password;
      try (exfalso; apply Hn; repeat split; discriminate);
      reflexivity.
  - intros (Hr & Hi & Hs).
    destruct refresh_token, consumer_id, consumer_secret; try congruence.
    unfold Login.send.
    destruct (post _); eexists; (split; [reflexivity|]);
      destruct sandbox; split; reflexivity.
  - intros [Hr [Hu Hp]].
    destruct username as [us|], password as [pw|]; try congruence.
    destruct refresh_token, consumer_id, consumer_secret;
      try (exfalso; apply Hr; repeat split; discriminate);
      cbn [Login.escape_argument];
      unfold Login.soap_body, Login.send;
      destruct security_token, organizationId; cbn [Login.format_argument];
      destruct (post _); eexists; (split; [reflexivity|]);
      destruct sandbox; split; cbn [req_method req_url Login.soap_request];
      rewrite <- ?app_assoc; reflexivity.
Qed.

(** The two ways a login goes once its arguments are read. *)
Lemma login_flows
    (getUniqueElementValueFromXmlString : str -> string -> Login.result json)
    (post : request -> reply)
    username password security_token refresh_token consumer_id consumer_secret
    organizationId sandbox sf_version client_id :
  let a := Login.SalesforceLogin getUniqueElementValueFromXmlString post
             username password security_token refresh_token consumer_id
             consumer_secret organizationId sandbox sf_version client_id in
  a = Login.mkAttempt [] (Login.Raise Login.AttributeError)
  \/ (exists rq, a = Login.send post rq Login.oauth_answer)
  \/ (exists rq, a = Login.send post rq
                       (Login.soap_answer getUniqueElementValueFromXmlString)).
Proof.
  cbv zeta; unfold Login.SalesforceLogin.
  destruct refresh_token, consumer_id, consumer_secret;
    try (right; left; eexists; reflexivity);
    destruct username, password; try (left; reflexivity);
    cbn [Login.escape_argument]; unfold Login.soap_body;
    destruct security_token, organizationId;
    right; right; eexists; reflexivity.
Qed.

Lemma and_then_ok {A B} (r : Login.result A) (k : A -> Login.result B) b :
  Login.and_then r k = Login.Ok b -> exists a, r = Login.Ok a /\ k a = Login.Ok b.
Proof. destruct r; cbn; [eauto|discriminate]. Qed.

Lemma and_then_raise {A B} (r : Login.result A) (k : A -> Login.result B) e :
  Login.and_then r k = Login.Raise e ->
  r = Login.Raise e \/ exists a, r = Login.Ok a /\ k a = Login.Raise e.
Proof. destruct r; cbn; [eauto|intros [= ->]; auto]. Qed.

Lemma cleanse_ok v s :
  Login.cleanse v = Login.Ok s -> exists url_, v = JStr url_ /\ s = Login.cleanseInstanceUrl url_.
Proof. destruct v; cbn; try discriminate. intros [= <-]; eauto. Qed.

Lemma oauth_answer_ok r session_id sf_instance :
  Login.oauth_answer r = Login.Ok (session_id, sf_instance) ->
  status_code r = 200%Z /\ ~ In (ch "/") sf_instance.
Proof.
  unfold Login.oauth_answer; intros H.
  apply and_then_ok in H as (data & _ & H).
  destruct (Z.eqb_spec (status_code r) 200) as [E|E]; cbn [negb] in H.
  - split; [exact E|].
    apply and_then_ok in H as (? & _ & H).
    apply and_then_ok in H as (? & _ & H).
    apply and_then_ok in H as (? & Hc & H).
    apply cleanse_ok in Hc as (url_ & _ & ->).
    injection H as _ <-. apply cleanseInstanceUrl_no_slash.
  - exfalso.
    apply and_then_ok in H as (? & _ & H).
    apply and_then_ok in H as (? & _ & H).
    apply and_then_ok in H as (? & _ & H).
    apply and_then_ok in H as (? & _ & H). discriminate.
Qed.

Lemma soap_answer_ok
    (getUniqueElementValueFromXmlString : str -> string -> Login.result json)
    r session_id sf_instance :
  Login.soap_answer getUniqueElementValueFromXmlString r
  = Login.Ok (session_id, sf_instance) ->
  status_code r = 200%Z /\ ~ In (ch "/") sf_instance.
Proof.
  unfold Login.soap_answer; intros H.
  destruct (Z.eqb_spec (status_code r) 200) as [E|E]; cbn [negb] in H.
  - split; [exact E|].
    apply and_then_ok in H as (? & _ & H).
    apply and_then_ok in H as (? & _ & H).
    apply and_then_ok in H as (? & Hc & H).
    apply cleanse_ok in Hc as (url_ & _ & ->).
    injection H as _ <-. apply cleanseInstanceUrl_no_slash.
  - exfalso.
    apply and_then_ok in H as (? & _ & H).
    apply and_then_ok in H as (? & _ & H). discriminate.
Qed.

Lemma cleanse_raises v e : Login.cleanse v = Login.Raise e -> e = Login.AttributeError.
Proof. destruct v; cbn; congruence. Qed.

Lemma len_raises v e : Login.len v = Login.Raise e -> e = Login.TypeError.
Proof. destruct v; cbn; congruence. Qed.

Lemma get_raises v key e : Login.get v key = Login.Raise e -> e = Login.AttributeError.
Proof.
  destruct v; cbn; try congruence. destruct (dict_get _ _); congruence.
Qed.

Lemma getitem_raises v key e :
  Login.getitem v key = Login.Raise e ->
  e = Login.TypeError \/ e = Login.KeyError (JStr (u key)).
Proof.
  destruct v; cbn; try (intros [= <-]; tauto).
  destruct (dict_get _ _); [discriminate|intros [= <-]; tauto].
Qed.

Lemma first_raises v e :
  Login.first v = Login.Raise e ->
  e = Login.TypeError \/ e = Login.IndexError \/ e = Login.KeyError (JInt 0).
Proof.
  destruct v as [| | | |s|l|d]; cbn; try (intros [= <-]; tauto).
  - destruct s; [intros [= <-]; tauto|discriminate].
  - destruct l; [intros [= <-]; tauto|discriminate].
Qed.

Lemma response_json_raises r e :
  Login.response_json r = Login.Raise e ->
  e = Login.RecursionError \/ exists d, e = Login.ValueError d.
Proof.
  unfold Login.response_json; destruct (json_loads _); intros [= <-]; eauto.
Qed.

Lemma oauth_answer_failed r code message :
  Login.oauth_answer r
  = Login.Raise (Login.SalesforceAuthenticationFailed code message) ->
  status_code r <> 200%Z.
Proof.
  unfold Login.oauth_answer; intros H.
  apply and_then_raise in H as [H|(data & _ & H)].
  { apply response_json_raises in H as [H|[d H]]; discriminate. }
  destruct (Z.eqb_spec (status_code r) 200) as [E|E]; cbn [negb] in H;
    [exfalso|exact E].
  apply and_then_raise in H as [H|(? & _ & H)];
    [apply get_raises in H; discriminate|].
  apply and_then_raise in H as [H|(? & _ & H)];
    [apply get_raises in H; discriminate|].
  apply and_then_raise in H as [H|(? & _ & H)];
    [apply cleanse_raises in H; discriminate|].
  discriminate.
Qed.

(** X15. A login that returns has sent exactly one request and received
    an answer of status 200 to it, and the instance it returns contains no
    slash. *)
Theorem login_returns_after_status_200
    (getUniqueElementValueFromXmlString : str -> string -> Login.result json)
    (post : request -> reply)
    username password security_token refresh_token consumer_id consumer_secret
    organizationId sandbox sf_version client_id session_id sf_instance :
  let a := Login.SalesforceLogin getUniqueElementValueFromXmlString post
             username password security_token refresh_token consumer_id
             consumer_secret organizationId sandbox sf_version client_id in
  Login.ended a = Login.Ok (session_id, sf_instance) ->
  ~ In (ch "/") sf_instance
  /\ exists rq r, Login.sent a = [rq] /\ post rq = Responded r
                  /\ status_code r = 200%Z.
Proof.
  cbv zeta.
  destruct (login_flows getUniqueElementValueFromXmlString post
              username password security_token refresh_token consumer_id
              consumer_secret organizationId sandbox sf_version client_id)
    as [E|[[rq E]|[rq E]]]; rewrite E; clear E;
    [discriminate| |]; unfold Login.send;
    destruct (post rq) as [r|] eqn:Hpost; cbn [Login.ended Login.sent];
    try discriminate; intros H.
  - apply oauth_answer_ok in H as [H200 Hslash]; eauto 7.
  - apply soap_answer_ok in H as [H200 Hslash]; eauto 7.
Qed.

(** X16. Provided the XML reader itself raises no authentication failure,
    a login that ends with [SalesforceAuthenticationFailed] has sent
    exactly one request and received an answer of a status other than 200
    to it: the failure is never raised from the arguments alone. *)
Theorem authentication_failure_follows_an_answer
    (getUniqueElementValueFromXmlString : str -> string -> Login.result json)
    (post : request -> reply)
    username password security_token refresh_token consumer_id consumer_secret
    organizationId sandbox sf_version client_id code message :
  let a := Login.SalesforceLogin getUniqueElementValueFromXmlString post
             username password security_token refresh_token consumer_id
             consumer_secret organizationId sandbox sf_version client_id in
  (forall s tag c m,
      getUniqueElementValueFromXmlString s tag
      <> Login.Raise (Login.SalesforceAuthenticationFailed c m)) ->
  Login.ended a
  = Login.Raise (Login.SalesforceAuthenticationFailed code message) ->
  exists rq r, Login.sent a = [rq] /\ post rq = Responded r
               /\ status_code r <> 200%Z.
Proof.
  cbv zeta; intros Hxml.
  destruct (login_flows getUniqueElementValueFromXmlString post
              username password security_token refresh_token consumer_id
              consumer_secret organizationId sandbox sf_version client_id)
    as [E|[[rq E]|[rq E]]]; rewrite E; clear E;
    [discriminate| |]; unfold Login.send;
    destruct (post rq) as [r|] eqn:Hpost; cbn [Login.ended Login.sent];
    try discriminate; intros H.
  - apply oauth_answer_failed in H; eauto 7.
  - exists rq, r; repeat split; [exact Hpost|].
    unfold Login.soap_answer in H.
    destruct (Z.eqb_spec (status_code r) 200) as [E|E]; cbn [negb] in H;
      [exfalso|exact E].
    apply and_then_raise in H as [H|(? & _ & H)]; [now apply Hxml in H|].
    apply and_then_raise in H as [H|(? & _ & H)]; [now apply Hxml in H|].
    apply and_then_raise in H as [H|(? & _ & H)];
      [apply cleanse_raises in H; discriminate|discriminate].
Qed.

Ltac answered Hpost :=
  match goal with
  | |- context [match ?p ?rq with Responded _ => _ | RequestFailed => _ end] =>
      let H := fresh in
      assert (H : p rq = Responded _) by exact Hpost; rewrite H; clear H
  end.

(** X17. The refresh flow, after its request was answered.  A body that
    is not JSON ends the login with the decoder's [ValueError], whatever
    the status.  With a status other than 200, a body that is a list
    beginning with an object that has [errorCode] and [message] ends it
    with the authentication failure of these two; this is the only way to
    that failure.  A body that is itself a non-empty object ends it with
    [KeyError(0)], and the empty object with [KeyError('errorCode')]. *)
Theorem refresh_failure_by_body
    (getUniqueElementValueFromXmlString : str -> string -> Login.result json)
    (post : request -> reply)
    username password security_token refresh_token consumer_id consumer_secret
    organizationId sandbox sf_version client_id r :
  let a := Login.SalesforceLogin getUniqueElementValueFromXmlString post
             username password security_token (Some refresh_token)
             (Some consumer_id) (Some consumer_secret) organizationId sandbox
             sf_version client_id in
  post (Login.oauth_request
          (u "https://" ++ (if sandbox then u "test" else u "login")
             ++ u ".salesforce.com/services/oauth2/token")
          consumer_id consumer_secret refresh_token) = Responded r ->
  (forall e, json_loads (text r) = DecodeFailed e ->
             Login.ended a = Login.Raise (Login.ValueError e))
  /\ (status_code r <> 200%Z ->
      forall data, json_loads (text r) = Decoded data ->
      (forall d rest code message,
          data = JList (JDict d :: rest) ->
          dict_get d (u "errorCode") = Some code ->
          dict_get d (u "message") = Some message ->
          Login.ended a
          = Login.Raise (Login.SalesforceAuthenticationFailed code message))
      /\ (forall code message,
             Login.ended a
             = Login.Raise (Login.SalesforceAuthenticationFailed code message) ->
             exists d rest,
               data = JList (JDict d :: rest)
               /\ dict_get d (u "errorCode") = Some code
               /\ dict_get d (u "message") = Some message)
      /\ (forall item d, data = JDict (item :: d) ->
                         Login.ended a = Login.Raise (Login.KeyError (JInt 0)))
      /\ (data = JDict [] ->
          Login.ended a
          = Login.Raise (Login.KeyError (JStr (u "errorCode"))))).
Proof.
  cbv zeta; intros Hpost.
  unfold Login.SalesforceLogin; cbv zeta; unfold Login.send;
    answered Hpost;
    cbn [Login.ended]; unfold Login.oauth_answer, Login.response_json.
  split.
  - intros e ->; reflexivity.
  - intros Hstatus data ->; cbn [Login.and_then].
    destruct (Z.eqb_spec (status_code r) 200) as [E|_]; [contradiction|].
    cbn [negb].
    split; [|split; [|split]].
    + intros d rest code message -> Hcode Hmessage.
      cbn [Login.len Login.first Login.getitem Login.and_then length Nat.ltb
             Nat.leb].
      rewrite Hcode; cbn [Login.and_then]; rewrite Hmessage; reflexivity.
    + intros code message H.
      destruct data as [| | | |s|l|d]; try discriminate.
      * destruct s; discriminate.
      * destruct l as [|x l]; [discriminate|].
        cbn [Login.len Login.first Login.getitem Login.and_then length Nat.ltb
               Nat.leb] in H.
        destruct x; try discriminate. cbn [Login.getitem] in H.
        destruct (dict_get d (u "errorCode")) as [c|] eqn:Hc; [|discriminate].
        destruct (dict_get d (u "message")) as [m|] eqn:Hm; [|discriminate].
        cbn in H; injection H as <- <-; eauto.
      * destruct d; discriminate.
    + intros item d ->; reflexivity.
    + intros ->; reflexivity.
Qed.

(** X18. The refresh flow, after an answer of status 200 whose body is a
    JSON object: with a text under [instance_url] the login returns the
    value under [access_token], [None] when there is none, with the
    cleansed instance URL; without [instance_url] it ends with
    [AttributeError].  The user name, the password, the security token,
    the organisation and the client name play no part. *)
Theorem refresh_login_result
    (getUniqueElementValueFromXmlString : str -> string -> Login.result json)
    (post : request -> reply)
    username password security_token refresh_token consumer_id consumer_secret
    organizationId sandbox sf_version client_id r d :
  let a := Login.SalesforceLogin getUniqueElementValueFromXmlString post
             username password security_token (Some refresh_token)
             (Some consumer_id) (Some consumer_secret) organizationId sandbox
             sf_version client_id in
  post (Login.oauth_request
          (u "https://" ++ (if sandbox then u "test" else u "login")
             ++ u ".salesforce.com/services/oauth2/token")
          consumer_id consumer_secret refresh_token) = Responded r ->
  status_code r = 200%Z ->
  json_loads (text r) = Decoded (JDict d) ->
  (forall instance_url,
      dict_get d (u "instance_url") = Some (JStr instance_url) ->
      Login.ended a
      = Login.Ok (match dict_get d (u "access_token") with
                  | Some session_id => session_id
                  | None => JNull
                  end, Login.cleanseInstanceUrl instance_url))
  /\ (dict_get d (u "instance_url") = None ->
      Login.ended a = Login.Raise Login.AttributeError).
Proof.
  cbv zeta; intros Hpost Hstatus Hbody.
  unfold Login.SalesforceLogin; cbv zeta; unfold Login.send;
    answered Hpost;
    cbn [Login.ended]; unfold Login.oauth_answer, Login.response_json.
  rewrite Hbody, Hstatus; cbn [Login.and_then Z.eqb Pos.eqb negb Login.get].
  split.
  - intros instance_url ->.
    destruct (dict_get d (u "access_token")); reflexivity.
  - intros ->. destruct (dict_get d (u "access_token")); reflexivity.
Qed.

(** X19. Arguments that play no part.  When the three arguments of the
    refresh flow are given, the login is the same whatever the user name,
    the password, the security token, the organisation, the API version
    and the client name are.  When a security token is given, the login is
    the same whatever the organisation is.  An empty client name is the
    same as none. *)
Theorem login_ignores_arguments
    (getUniqueElementValueFromXmlString : str -> string -> Login.result json)
    (post : request -> reply)
    username password security_token refresh_token consumer_id consumer_secret
    organizationId sandbox sf_version client_id :
  let login := Login.SalesforceLogin getUniqueElementValueFromXmlString post in
  (forall refresh_token_ consumer_id_ consumer_secret_
          username' password' security_token' organizationId' sf_version'
          client_id',
      refresh_token = Some refresh_token_ ->
      consumer_id = Some consumer_id_ ->
      consumer_secret = Some consumer_secret_ ->
      login username password security_token refresh_token consumer_id
        consumer_secret organizationId sandbox sf_version client_id
      = login username' password' security_token' refresh_token consumer_id
          consumer_secret organizationId' sandbox sf_version' client_id')
  /\ (forall token organizationId',
         security_token = Some token ->
         login username password security_token refresh_token consumer_id
           consumer_secret organizationId sandbox sf_version client_id
         = login username password security_token refresh_token consumer_id
             consumer_secret organizationId' sandbox sf_version client_id)
  /\ login username password security_token refresh_token consumer_id
       consumer_secret organizationId sandbox sf_version (Some [])
     = login username password security_token refresh_token consumer_id
         consumer_secret organizationId sandbox sf_version None.
Proof.
  cbv zeta; split; [|split].
  - intros ? ? ? ? ? ? ? ? ? -> -> ->. reflexivity.
  - intros token organizationId' ->.
    unfold Login.SalesforceLogin; cbv zeta.
    destruct refresh_token, consumer_id, consumer_secret; try reflexivity;
      destruct username, password; reflexivity.
  - reflexivity.
Qed.

(** X20. The request of the SOAP flows.  With a user name and a password,
    and the three arguments of the refresh flow not all given, the login
    sends one [POST] to the SOAP address with the headers [content-type],
    [charset] and [SOAPAction].  Its body is the envelope with the
    security token when one is given, else the envelope with the
    organisation when one is given, else the plain envelope; the user name
    and the password are escaped in it, the client name is
    [RestForce/name] for a non-empty name and [RestForce] otherwise. *)
Theorem soap_login_request
    (getUniqueElementValueFromXmlString : str -> string -> Login.result json)
    (post : request -> reply)
    username password security_token refresh_token consumer_id consumer_secret
    organizationId sandbox sf_version client_id :
  let a := Login.SalesforceLogin getUniqueElementValueFromXmlString post
             (Some username) (Some password) security_token refresh_token
             consumer_id consumer_secret organizationId sandbox sf_version
             client_id in
  let client :=
    match client_id with
    | Some (c :: app_name) => u "RestForce/" ++ c :: app_name
    | _ => u "RestForce"
    end in
  let body :=
    match security_token, organizationId with
    | Some token, _ =>
        Login.token_body client (Login.escape username) (Login.escape password)
          token
    | None, Some organization =>
        Login.organization_body client organization (Login.escape username)
          (Login.escape password)
    | None, None =>
        Login.plain_body client (Login.escape username) (Login.escape password)
    end in
  refresh_token = None \/ consumer_id = None \/ consumer_secret = None ->
  Login.sent a
  = [ mkRequest (u "POST")
        (u "https://" ++ (if sandbox then u "test" else u "login")
           ++ u ".salesforce.com/services/Soap/u/" ++ sf_version)
        [ (u "content-type", u "text/xml");
          (u "charset", u "UTF-8");
          (u "SOAPAction", u "login") ]
        (Some (JStr body)) ].
Proof.
  cbv zeta; intros Hrefresh.
  assert (E : forall rq answer, Login.sent (Login.send post rq answer) = [rq])
    by (intros; unfold Login.send; destruct (post _); reflexivity).
  unfold Login.SalesforceLogin; cbv zeta.
  destruct refresh_token, consumer_id, consumer_secret;
    try (exfalso; intuition discriminate);
    cbn [Login.escape_argument]; unfold Login.soap_body;
    destruct security_token, organizationId, client_id as [[|c app_name]|];
    cbn [Login.format_argument]; rewrite E; reflexivity.
Qed.

(** X21. The result of the SOAP flows.  With a user name and a password,
    the three arguments of the refresh flow not all given, and the request
    answered: on status 200 the login returns the [sessionId] of the
    answer with its cleansed [serverUrl], and ends with [AttributeError]
    when the answer has no [serverUrl]; on any other status it ends with
    the authentication failure made of the answer's [sf:exceptionCode] and
    [sf:exceptionMessage]. *)
Theorem soap_login_result
    (getUniqueElementValueFromXmlString : str -> string -> Login.result json)
    (post : request -> reply)
    username password security_token refresh_token consumer_id consumer_secret
    organizationId sandbox sf_version client_id r :
  let a := Login.SalesforceLogin getUniqueElementValueFromXmlString post
             (Some username) (Some password) security_token refresh_token
             consumer_id consumer_secret organizationId sandbox sf_version
             client_id in
  let element := getUniqueElementValueFromXmlString (text r) in
  refresh_token = None \/ consumer_id = None \/ consumer_secret = None ->
  (forall rq, In rq (Login.sent a) -> post rq = Responded r) ->
  (status_code r = 200%Z ->
   forall session_id,
     element "sessionId"%string = Login.Ok session_id ->
     (forall server_url,
         element "serverUrl"%string = Login.Ok (JStr server_url) ->
         Login.ended a
         = Login.Ok (session_id, Login.cleanseInstanceUrl server_url))
     /\ (element "serverUrl"%string = Login.Ok JNull ->
         Login.ended a = Login.Raise Login.AttributeError))
  /\ (status_code r <> 200%Z ->
      forall except_code except_msg,
        element "sf:exceptionCode"%string = Login.Ok except_code ->
        element "sf:exceptionMessage"%string = Login.Ok except_msg ->
        Login.ended a
        = Login.Raise (Login.SalesforceAuthenticationFailed except_code
                         except_msg)).
Proof.
  cbv zeta; intros Hrefresh.
  unfold Login.SalesforceLogin; cbv zeta.
  destruct refresh_token, consumer_id, consumer_secret;
    try (exfalso; intuition discriminate);
    cbn [Login.escape_argument]; unfold Login.soap_body;
    destruct security_token, organizationId; cbn [Login.format_argument];
    unfold Login.send;
    match goal with
    | |- context [match post ?rq with Responded _ => _ | RequestFailed => _ end] =>
        destruct (post rq) as [r'|] eqn:Hr; cbn [Login.sent Login.ended];
        intros Hpost; specialize (Hpost rq (or_introl eq_refl));
        rewrite Hr in Hpost; [injection Hpost as ->|discriminate Hpost]
    end;
    (unfold Login.soap_answer; split;
     [ intros -> session_id Hs; cbn [Z.eqb Pos.eqb negb];
       rewrite Hs; cbn [Login.and_then];
       split; [intros server_url ->|intros ->]; reflexivity
     | intros Hstatus except_code except_msg Hc Hm;
       destruct (Z.eqb_spec (status_code r) 200); [contradiction|];
       cbn [negb]; rewrite Hc; cbn [Login.and_then]; rewrite Hm; reflexivity ]).
Qed.

(** * Examples of the further properties *)

Lemma additional_headers_persist_witness :
  headers (snd (_call_salesforce (example_url ++ u "job") (u "POST")
                  (constant (ok "{}"))
                  (Some [(u "Sforce-Enable-PKChunking", u "true")]) None start))
  = [ (u "X-SFDC-Session", u "00D"); (u "Sforce-Enable-PKChunking", u "true") ].
Proof.
  refine (proj1 (additional_headers_persist
                   (example_url ++ u "job") (u "POST") (constant (ok "{}"))
                   [(u "Sforce-Enable-PKChunking", u "true")] None
                   (example_url ++ u "job") (u "GET") (constant (ok "{}")) None
                   start _)).
  simpl; constructor; [intros []|constructor].
Defined.

Lemma creation_without_id_is_raised_witness :
  exists e,
    _bulk_operation json_dumps 3
      (mkSFBulkType (u "Lead") example_url (constant (ok "{'state':'Open'}")))
      (u "Lead") (u "insert") two_leads JNull 5 start
    = (Raised e,
       extended start
         [Call (create_request
                  (mkSFBulkType (u "Lead") example_url
                     (constant (ok "{'state':'Open'}")))
                  (u "Lead") (u "insert") JNull (headers start))
            (Responded (ok "{'state':'Open'}"))])
    /\ e = EKeyError (JStr (u "id")).
Proof.
  refine (creation_without_id_is_raised json_dumps 3
            (mkSFBulkType (u "Lead") example_url (constant (ok "{'state':'Open'}")))
            (u "Lead") (u "insert") two_leads JNull 5 start
            (JDict [(u "state", JStr (u "Open"))]) eq_refl _).
  intros job_id H; vm_compute in H; discriminate H.
Defined.

Lemma submission_failure_leaves_job_open_witness :
  let org := mkSFBulkType (u "Lead") example_url
               (scripted [ ok "{'id':'750'}";
                           mkResponse 500 example_url (u "Server Error") ]) in
  fst (_bulk_operation json_dumps 3 org (u "Lead") (u "insert") two_leads JNull 5
         start)
  = Raised (classified (mkResponse 500 example_url (u "Server Error"))).
Proof.
  exact (f_equal fst
           (proj1 (submission_failure_leaves_job_open json_dumps 3
                     (mkSFBulkType (u "Lead") example_url
                        (scripted [ ok "{'id':'750'}";
                                    mkResponse 500 example_url (u "Server Error") ]))
                     (u "Lead") (u "insert") two_leads JNull 5 start
                     (JDict [(u "id", JStr (u "750"))]) (JStr (u "750"))
                     (classified (mkResponse 500 example_url (u "Server Error")))
                     eq_refl eq_refl eq_refl))).
Defined.



Lemma query_results_of_other_shapes_witness :
  let org := mkSFBulkType (u "Lead") example_url (constant (ok "{}")) in
  let rq := mkRequest (u "GET") (example_url ++ u "job/750/batch/751/result")
              (headers start) None in
  _get_batch_results json_dumps 3 org (JStr (u "750")) (JStr (u "751")) (u "query")
    start
  = (Returned (JDict []), extended start [Call rq (Responded (ok "{}"))]).
Proof.
  exact (query_results_of_other_shapes json_dumps 3
           (mkSFBulkType (u "Lead") example_url (constant (ok "{}")))
           (JStr (u "750")) (JStr (u "751")) start (ok "{}") (JDict [])
           eq_refl eq_refl eq_refl).
Defined.

Lemma error_messages_of_the_call_wrapper_witness :
  let result := mkResponse 404 example_url (u "gone") in
  exists e,
    fst (_call_salesforce (example_url ++ u "job/750") (u "GET") (constant result)
           None None start)
    = Raised (ESalesforce e)
    /\ SalesforceResourceNotFound_str json_dumps e
       = u "Resource  Not Found. Response content: gone".
Proof.
  destruct (error_messages_of_the_call_wrapper json_dumps
              (example_url ++ u "job/750") (u "GET")
              (constant (mkResponse 404 example_url (u "gone"))) None start
              (mkResponse 404 example_url (u "gone")) eq_refl)
    as (e & Hrun & Hfound & _); [vm_compute; discriminate|].
  exists e; split; [exact Hrun|].
  exact (proj2 (Hfound eq_refl)).
Defined.

Lemma finished_batch_is_retrieved_at_once_witness :
  let hs := headers start in
  let id := JStr (u "750") in
  let batch := JStr (u "751") in
  _bulk_operation json_dumps 0 failed_org (u "Lead") (u "insert") two_leads JNull 5
    start
  = _get_batch_results json_dumps 0 failed_org id batch (u "insert")
      (extended start
         [ Call (create_request failed_org (u "Lead") (u "insert") JNull hs)
             (Responded (ok "{'id':'750','state':'Open'}"));
           Call (submit_request json_dumps failed_org (u "insert") two_leads hs id)
             (Responded (ok "{'id':'751','jobId':'750','state':'Queued'}"));
           Call (close_request json_dumps failed_org hs id)
             (Responded (ok "{'id':'750','state':'Closed'}"));
           Call (status_request json_dumps failed_org hs id batch)
             (Responded (ok "{'id':'751','jobId':'750','state':'Failed'}")) ]).
Proof.
  exact (finished_batch_is_retrieved_at_once json_dumps 0 failed_org
           (u "Lead") (u "insert") two_leads JNull 5 start
           (JDict [(u "id", JStr (u "750")); (u "state", JStr (u "Open"))])
           (JStr (u "750"))
           (JDict [(u "id", JStr (u "751")); (u "jobId", JStr (u "750"));
                   (u "state", JStr (u "Queued"))])
           (JDict [(u "id", JStr (u "750")); (u "state", JStr (u "Closed"))])
           (JStr (u "750")) (JStr (u "751")) (JStr (u "Failed"))
           eq_refl eq_refl eq_refl eq_refl eq_refl eq_refl eq_refl eq_refl).
Defined.

Lemma cleansed_url_is_the_host_witness :
  Login.cleanseInstanceUrl
    (u "https://" ++ u "na1-api.salesforce.com" ++ u "/" ++ u "services/Soap/u/38.0")
  = Login.replace (u "na1-api.salesforce.com") (u "-api") [].
Proof.
  refine (proj1 (cleansed_url_is_the_host (u "na1-api.salesforce.com")
                   (u "services/Soap/u/38.0") _ _));
    vm_compute; intuition discriminate.
Defined.

Lemma login_returns_after_status_200_witness :
  ~ In (ch "/") (u "na1.salesforce.com")
  /\ exists rq r,
       Login.sent (Login.SalesforceLogin example_elements (answers granted)
                     None None None (Some (u "5Aep861")) (Some (u "3MVG9"))
                     (Some (u "secret")) None false (u "38.0") None) = [rq]
       /\ answers granted rq = Responded r /\ status_code r = 200%Z.
Proof.
  exact (login_returns_after_status_200 example_elements (answers granted)
           None None None (Some (u "5Aep861")) (Some (u "3MVG9"))
           (Some (u "secret")) None false (u "38.0") None
           (JStr (u "00D!AQ")) (u "na1.salesforce.com") eq_refl).
Defined.

Lemma authentication_failure_follows_an_answer_witness :
  exists rq r,
    Login.sent (Login.SalesforceLogin example_elements (answers refused)
                  None None None (Some (u "5Aep861")) (Some (u "3MVG9"))
                  (Some (u "secret")) None false (u "38.0") None) = [rq]
    /\ answers refused rq = Responded r /\ status_code r <> 200%Z.
Proof.
  refine (authentication_failure_follows_an_answer example_elements
            (answers refused)
            None None None (Some (u "5Aep861")) (Some (u "3MVG9"))
            (Some (u "secret")) None false (u "38.0") None
            (JStr (u "invalid_grant")) (JStr (u "expired access/refresh token"))
            _ eq_refl).
  intros s tag c m; unfold example_elements.
  destruct (String.eqb tag "sessionId"); [discriminate|].
  destruct (String.eqb tag "serverUrl"); discriminate.
Defined.

Lemma refresh_failure_by_body_witness :
  Login.ended (Login.SalesforceLogin example_elements (answers refused)
                 None None None (Some (u "5Aep861")) (Some (u "3MVG9"))
                 (Some (u "secret")) None false (u "38.0") None)
  = Login.Raise (Login.SalesforceAuthenticationFailed
                   (JStr (u "invalid_grant"))
                   (JStr (u "expired access/refresh token"))).
Proof.
  refine (proj1 (proj2 (refresh_failure_by_body example_elements (answers refused)
                          None None None (u "5Aep861") (u "3MVG9") (u "secret")
                          None false (u "38.0") None refused eq_refl)
                   _ _ eq_refl)
            [ (u "errorCode", JStr (u "invalid_grant"));
              (u "message", JStr (u "expired access/refresh token")) ]
            [] _ _ eq_refl eq_refl eq_refl).
  vm_compute; discriminate.
Defined.

Lemma refresh_login_result_witness :
  Login.ended (Login.SalesforceLogin example_elements (answers granted)
                 None None None (Some (u "5Aep861")) (Some (u "3MVG9"))
                 (Some (u "secret")) None true (u "38.0") None)
  = Login.Ok (JStr (u "00D!AQ"), u "na1.salesforce.com").
Proof.
  exact (proj1 (refresh_login_result example_elements (answers granted)
                  None None None (u "5Aep861") (u "3MVG9") (u "secret")
                  None true (u "38.0") None granted
                  [ (u "access_token", JStr (u "00D!AQ"));
                    (u "instance_url", JStr (u "https://na1-api.salesforce.com/")) ]
                  eq_refl eq_refl eq_refl)
           (u "https://na1-api.salesforce.com/") eq_refl).
Defined.

Lemma soap_login_request_witness :
  Login.sent (Login.SalesforceLogin example_elements (answers soap_granted)
                (Some (u "a<b@example.com")) (Some (u "p&w")) (Some (u "tok"))
                None None None (Some (u "00D")) true (u "38.0") (Some (u "app")))
  = [ mkRequest (u "POST") (u "https://test.salesforce.com/services/Soap/u/38.0")
        [ (u "content-type", u "text/xml");
          (u "charset", u "UTF-8");
          (u "SOAPAction", u "login") ]
        (Some (JStr (Login.token_body (u "RestForce/app")
                       (u "a&lt;b@example.com") (u "p&amp;w") (u "tok")))) ].
Proof.
  exact (soap_login_request example_elements (answers soap_granted)
           (u "a<b@example.com") (u "p&w") (Some (u "tok")) None None None
           (Some (u "00D")) true (u "38.0") (Some (u "app"))
           (or_introl eq_refl)).
Defined.

Lemma soap_login_result_witness :
  Login.ended (Login.SalesforceLogin example_elements (answers soap_granted)
                 (Some (u "a@example.com")) (Some (u "pw")) (Some (u "tok"))
                 None None None None false (u "38.0") None)
  = Login.Ok (JStr (u "00D!AQ"), u "na1.salesforce.com").
Proof.
  exact (proj1 (proj1 (soap_login_result example_elements (answers soap_granted)
                         (u "a@example.com") (u "pw") (Some (u "tok"))
                         None None None None false (u "38.0") None soap_granted
                         (or_introl eq_refl) (fun _ _ => eq_refl))
                  eq_refl (JStr (u "00D!AQ")) eq_refl)
           (u "https://na1-api.salesforce.com/services/Soap/u/38.0/00D") eq_refl).
Defined.
